(** * jupylot: the "Analyze Error" JupyterLab extension (src/index.ts)

    A shallow embedding of the extension's event handlers.  The browser
    objects the handlers mutate (the shared [Configuration] object, the
    cells' DOM nodes, the buttons and the result areas they create) live in
    an explicit store, [World], and are referred to by their position in
    it; every handler is a function on that store.

    The code suspends in two places.  At [await showDialog(...)] the dialog
    is modal: what the user does with it is an argument of the handler
    ([User]).  At the completion request the handler returns with the
    promise chain pending; the chain is a handler of its own
    ([chain_settled]), run when the event loop delivers the settlement. *)

From stdpp Require Import base option list strings gmap.

Local Open Scope string_scope.
Local Open Scope list_scope.

(** ** JavaScript values the handlers rely on *)

(** Truthiness of a string: only the empty string is falsy, so
    [!Configuration.SECRET_KEY] holds exactly for the empty key. *)
Definition truthy (s : string) : bool :=
  match s with
  | EmptyString => false
  | String _ _ => true
  end.

(** [v?.toString()] on a textual or missing value: a text is its own
    string, [undefined] short-circuits to [undefined]. *)
Definition optional_toString (v : option string) : option string :=
  match v with
  | Some s => Some s
  | None => None
  end.

(** [s + v] where [v] may be [undefined]: the operand is converted with
    ToString, and ToString(undefined) is the nine letters of its name. *)
Definition plus (s : string) (v : option string) : string :=
  match v with
  | Some t => s +:+ t
  | None => s +:+ "undefined"
  end.

(** An [Error] object, as far as the handlers read it. *)
Record Error := { message : string }.

(** The state of a promise once it has settled. *)
Inductive Settled (A : Type) : Type :=
| Fulfilled (value : A)
| Rejected (reason : Error).
Arguments Fulfilled {A} value.
Arguments Rejected {A} reason.

(** ** Configuration (lines 19-31) *)

Record Config := {
  SECRET_KEY : string;
  LANGUAGE : string;
  PROMPT : string
}.

(** A line feed, for the line breaks of the template literal below. *)
Definition LF : string := String (Ascii.ascii_of_nat 10) EmptyString.

(** The initial value of the module-level [Configuration] object. *)
Definition Configuration_initial : Config := {|
  SECRET_KEY := "";
  LANGUAGE := "KR";
  PROMPT :=
    LF +:+ "  파이썬 에러메시지 보고 에러의 이유를 요약해서 알려줘 (형식: 에러 이유: ~~ "
       +:+ LF +:+ " 해결 방법 : ~~)" +:+ LF +:+ "  "
|}.

(** ** InputDialog (lines 35-62)

    Three strings: the three values a dialog is constructed with, and
    also, in a [Closing], the three values [getValue] reads from the fields
    once the dialog has closed.  Between the two lie the browser, which
    parses the markup the constructor writes, and the person who edits the
    fields: both belong to the environment ([User] below). *)
Record InputDialog := {
  secret_key : string;
  language : string;
  prompt : string
}.

Definition new_InputDialog (secret_key language prompt : string) : InputDialog :=
  {| secret_key := secret_key; language := language; prompt := prompt |}.

(** [getValue()] on a closed dialog whose fields hold [dialog]. *)
Definition getValue (dialog : InputDialog) : InputDialog := dialog.



(** What [showDialog] resolves to: the button pressed ([result.button.accept])
    and the dialog body with whatever the fields hold by then. *)
Record Closing := {
  accept : bool;
  body : InputDialog
}.

(** The environment of a dialog: the browser that renders the markup of
    the dialog it is given and the person at the keyboard.  Given the
    dialog as it was constructed, the values the fields hold when it closes
    and the button pressed. *)
Definition User := InputDialog -> Closing.

Definition showDialog (dialog : InputDialog) (user : User) : Closing := user dialog.

(** ** The completion endpoint (lines 125-147) *)

Module ChatCompletion.
Record Message := { role : string; content : string }.
Record Body := { model : string; messages : list Message }.
Record Headers := { Content_Type : string; Authorization : string }.
Record Request := { url : string; body : Body; headers : Headers }.
Record Choice := { message : Message }.
(** [response.data] of a 2xx answer. *)
Record Response := { choices : list Choice }.
End ChatCompletion.

(** The [TypeError] thrown by [choices[0].message] when [choices] is empty
    (the wording is the engine's; no property below depends on it). *)
Definition TypeError_undefined : Error :=
  {| message := "Cannot read properties of undefined (reading 'message')" |}.

(** ** Notebook cells, buttons and result areas *)

(** One entry of a cell's output list: its [type] and its MIME bundle
    [data], whose values are taken to be texts. *)
Record IOutputModel := {
  type : string;
  data : gmap string string
}.

Inductive CellType := code | markdown | raw.

Global Instance CellType_eq_dec : EqDecision CellType.
Proof. solve_decision. Defined.

(** The children of a cell's DOM node: what the host rendered, the buttons
    and the result areas this extension appended (by reference into the
    store). *)
Inductive Node :=
| HostNode
| ButtonNode (b : nat)
| OutputAreaNode (m : nat).

Global Instance Node_eq_dec : EqDecision Node.
Proof. solve_decision. Defined.

(** A cell widget: [cell_type] is [cell.model.type], [outputs] is
    [codeCellModel.outputs], [node] the children of [cell.node] in document
    order, and [changed_slots] the number of slots this extension has
    connected to [codeCell.outputArea.model.changed]. *)
Record Cell := {
  cell_type : CellType;
  outputs : list IOutputModel;
  node : list Node;
  changed_slots : nat
}.

(** The button element made by [checkForErrors], with the two variables its
    [onclick] closure captures: [errorMessage] and the [cell]. *)
Record HTMLButtonElement := {
  innerText : string;
  className : string;
  disabled : bool;
  errorMessage : option string;
  cell : nat
}.

(** An entry added to an [OutputAreaModel]. *)
Record IOutput := {
  output_type : string;
  name : string;
  text : string
}.

Definition stream_stdout (text : string) : IOutput :=
  {| output_type := "stream"; name := "stdout"; text := text |}.

(** *** The host's output model (@jupyterlab/outputarea)

    [OutputAreaModel.add] does not store a stream entry as it is given: it
    rewrites the text where carriage returns and backspaces overwrite
    earlier characters, and when the entry before is a stream of the same
    name with a non-empty text it replaces that entry by one holding both
    texts, rewritten likewise.  The rewriting is the library's; it leaves a
    text without such characters as it is, and what it makes of the others
    is taken from the store ([overwritten]). *)

Definition CR : Ascii.ascii := Ascii.ascii_of_nat 13.
Definition BS : Ascii.ascii := Ascii.ascii_of_nat 8.

(** Whether a text holds a carriage return or a backspace. *)
Fixpoint overwrites (text : string) : bool :=
  match text with
  | EmptyString => false
  | String a rest => (Ascii.eqb a CR || Ascii.eqb a BS) || overwrites rest
  end.

(** [Private.removeOverwrittenChars], given the library's rewriting of the
    texts that hold such characters. *)
Definition removeOverwrittenChars (overwritten : string -> string)
    (text : string) : string :=
  if overwrites text then overwritten text else text.

(** [nbformat.isStream]. *)
Definition isStream (o : IOutput) : bool :=
  String.eqb (output_type o) "stream".

(** The entry as [add] stores it when it starts a new item. *)
Definition normalized (overwritten : string -> string) (value : IOutput)
  : IOutput :=
  if isStream value
  then {| output_type := output_type value; name := name value;
          text := removeOverwrittenChars overwritten (text value) |}
  else value.

(** The list of a model after [add(value)], from its list [l] before: the
    last entry plays the part of [_lastStream] and [_lastName]. *)
Definition OutputAreaModel_add (overwritten : string -> string)
    (l : list IOutput) (value : IOutput) : list IOutput :=
  match last l with
  | Some lastModel =>
      if isStream value && isStream lastModel && truthy (text lastModel)
         && String.eqb (name value) (name lastModel)
      then removelast l
           ++ [ {| output_type := output_type value; name := name value;
                   text := removeOverwrittenChars overwritten
                             (text lastModel +:+ text value) |} ]
      else l ++ [normalized overwritten value]
  | None => l ++ [normalized overwritten value]
  end.

(** ** The store *)

Record World := {
  Configuration : Config;
  (** [notebook.model !== null] *)
  has_model : bool;
  (** whether the slot of lines 108-120 is connected to [cells.changed] *)
  watching : bool;
  (** every cell widget, referred to by its position in this list *)
  cells : list Cell;
  (** [notebook.widgets]: the cells of the notebook, in document order *)
  widgets : list nat;
  (** every button element created so far *)
  buttons : list HTMLButtonElement;
  (** every result [OutputAreaModel] created so far *)
  models : list (list IOutput);
  (** the calls of [axios.post], in order *)
  posted : list ChatCompletion.Request;
  (** per posted request, the button and result model its promise chain
      captures; [None] once the chain has run *)
  chains : list (option (nat * nat));
  (** what [console.error] received *)
  console : list Error;
  (** the output model's rewriting of a text that holds carriage returns
      or backspaces: the host library's, not this repository's *)
  overwritten : string -> string
}.

Definition set_Configuration (c : Config) (w : World) : World :=
  {| Configuration := c; has_model := has_model w; watching := watching w;
     cells := cells w; widgets := widgets w; buttons := buttons w; models := models w;
     posted := posted w; chains := chains w; console := console w;
     overwritten := overwritten w |}.

Definition set_watching (x : bool) (w : World) : World :=
  {| Configuration := Configuration w; has_model := has_model w; watching := x;
     cells := cells w; widgets := widgets w; buttons := buttons w; models := models w;
     posted := posted w; chains := chains w; console := console w;
     overwritten := overwritten w |}.

Definition set_cells (x : list Cell) (w : World) : World :=
  {| Configuration := Configuration w; has_model := has_model w;
     watching := watching w; cells := x; widgets := widgets w;
     buttons := buttons w;
     models := models w; posted := posted w; chains := chains w;
     console := console w;
     overwritten := overwritten w |}.

Definition set_buttons (x : list HTMLButtonElement) (w : World) : World :=
  {| Configuration := Configuration w; has_model := has_model w;
     watching := watching w; cells := cells w; widgets := widgets w; buttons := x;
     models := models w; posted := posted w; chains := chains w;
     console := console w;
     overwritten := overwritten w |}.

Definition set_models (x : list (list IOutput)) (w : World) : World :=
  {| Configuration := Configuration w; has_model := has_model w;
     watching := watching w; cells := cells w; widgets := widgets w; buttons := buttons w;
     models := x; posted := posted w; chains := chains w;
     console := console w;
     overwritten := overwritten w |}.

Definition set_posted (x : list ChatCompletion.Request) (w : World) : World :=
  {| Configuration := Configuration w; has_model := has_model w;
     watching := watching w; cells := cells w; widgets := widgets w; buttons := buttons w;
     models := models w; posted := x; chains := chains w;
     console := console w;
     overwritten := overwritten w |}.

Definition set_chains (x : list (option (nat * nat))) (w : World) : World :=
  {| Configuration := Configuration w; has_model := has_model w;
     watching := watching w; cells := cells w; widgets := widgets w; buttons := buttons w;
     models := models w; posted := posted w; chains := x;
     console := console w;
     overwritten := overwritten w |}.

Definition set_console (x : list Error) (w : World) : World :=
  {| Configuration := Configuration w; has_model := has_model w;
     watching := watching w; cells := cells w; widgets := widgets w; buttons := buttons w;
     models := models w; posted := posted w; chains := chains w;
     console := x; overwritten := overwritten w |}.

(** *** DOM and model primitives *)

(** [cell.node.appendChild(n)] on the cell at reference [c]. *)
Definition appendChild (c : nat) (n : Node) (w : World) : World :=
  match cells w !! c with
  | Some cl =>
      set_cells
        (<[c := {| cell_type := cell_type cl; outputs := outputs cl;
                   node := node cl ++ [n];
                   changed_slots := changed_slots cl |}]> (cells w)) w
  | None => w
  end.

(** [codeCell.outputArea.model.changed.connect(...)] with a fresh closure:
    one more slot on the cell at reference [c]. *)
Definition connect_changed (c : nat) (w : World) : World :=
  match cells w !! c with
  | Some cl =>
      set_cells
        (<[c := {| cell_type := cell_type cl; outputs := outputs cl;
                   node := node cl;
                   changed_slots := S (changed_slots cl) |}]> (cells w)) w
  | None => w
  end.

(** [errorButton.disabled = x] on the button at reference [b]. *)
Definition set_disabled (b : nat) (x : bool) (w : World) : World :=
  match buttons w !! b with
  | Some e =>
      set_buttons
        (<[b := {| innerText := innerText e; className := className e;
                   disabled := x; errorMessage := errorMessage e;
                   cell := cell e |}]> (buttons w)) w
  | None => w
  end.

(** [model.add(o)] and [model.clear()] on the result model at reference [m]. *)
Definition model_add (m : nat) (o : IOutput) (w : World) : World :=
  match models w !! m with
  | Some l =>
      set_models (<[m := OutputAreaModel_add (overwritten w) l o]> (models w)) w
  | None => w
  end.

Definition model_clear (m : nat) (w : World) : World :=
  match models w !! m with
  | Some _ => set_models (<[m := []]> (models w)) w
  | None => w
  end.

Definition console_error (e : Error) (w : World) : World :=
  set_console (console w ++ [e]) w.

(** What a result area shows: the texts of its model's entries, in order. *)
Definition shown (l : list IOutput) : string :=
  foldr (fun o s => text o +:+ s) "" l.

(** ** getErrorAnalysis (lines 125-147) *)

(** The arguments of the [axios.post] call. *)
Definition getErrorAnalysis_request (prompt SECRET_KEY : string)
  : ChatCompletion.Request :=
  {| ChatCompletion.url := "https://api.openai.com/v1/chat/completions";
     ChatCompletion.body :=
       {| ChatCompletion.model := "gpt-3.5-turbo";
          ChatCompletion.messages :=
            [ {| ChatCompletion.role := "user";
                 ChatCompletion.content := prompt |} ] |};
     ChatCompletion.headers :=
       {| ChatCompletion.Content_Type := "application/json";
          ChatCompletion.Authorization := "Bearer " +:+ SECRET_KEY |} |}.

(** The rest of the function, run when the posted request has settled:
    [response.data.choices[0].message.content] on success; anything thrown
    in the [try] block is logged and thrown again. *)
Definition getErrorAnalysis_settled (r : Settled ChatCompletion.Response)
    (w : World) : World * Settled string :=
  match r with
  | Fulfilled response_data =>
      match ChatCompletion.choices response_data !! 0 with
      | Some choice =>
          (w, Fulfilled (ChatCompletion.content (ChatCompletion.message choice)))
      | None =>
          (console_error TypeError_undefined w, Rejected TypeError_undefined)
      end
  | Rejected error => (console_error error w, Rejected error)
  end.

(** ** The configuration dialog (lines 75-88 and 158-169) *)

(** Lines 83-86 and 165-168: the three assignments to [Configuration]. *)
Definition assign_output (output : InputDialog) (w : World) : World :=
  set_Configuration
    {| SECRET_KEY := secret_key output;
       LANGUAGE := language output;
       PROMPT := prompt output |} w.

(** Lines 76-87 (the same statements as 158-169): open the dialog seeded
    with the stored values, wait for it to close, apply it if accepted. *)
Definition configure (user : User) (w : World) : World :=
  let dialog :=
    new_InputDialog (SECRET_KEY (Configuration w)) (LANGUAGE (Configuration w))
                    (PROMPT (Configuration w)) in
  let result := showDialog dialog user in
  if accept result then assign_output (getValue (body result)) w else w.

(** The toolbar button's [onClick] (lines 75-88). *)
Definition myButton_onClick (user : User) (w : World) : World :=
  configure user w.

(** ** checkForErrors (lines 149-215) *)

(** The button of lines 152-154, with what its [onclick] captures. *)
Definition new_errorButton (errorMessage : option string) (cell : nat)
  : HTMLButtonElement :=
  {| innerText := "Analyze Error"; className := "error-button";
     disabled := false; errorMessage := errorMessage; cell := cell |}.

Definition checkForErrors (c : nat) (w : World) : World :=
  match cells w !! c with
  | Some codeCellModel =>
      match outputs codeCellModel !! 0 with
      | Some output0 =>
          if bool_decide (0 < length (outputs codeCellModel))
             && bool_decide (type output0 = "error")
          then
            let errorMessage :=
              data output0 !! "application/vnd.jupyter.stderr" in
            let errorButton := length (buttons w) in
            appendChild c (ButtonNode errorButton)
              (set_buttons (buttons w ++ [new_errorButton errorMessage c]) w)
          else w
      | None => w
      end
  | None => w
  end.

(** *** errorButton.onclick (lines 156-212) *)

(** Lines 157-170. *)
Definition credential_guard (user : User) (w : World) : World :=
  if negb (truthy (SECRET_KEY (Configuration w)))
  then configure user w
  else w.

(** Lines 172-185 and 210: disable the button, make the result area with
    its placeholder, call [getErrorAnalysis] (which posts the request and
    leaves the promise chain of lines 186-208 pending), append the area. *)
Definition start_request (b : nat) (w : World) : World :=
  match buttons w !! b with
  | Some errorButton =>
      let w1 := set_disabled b true w in
      let model := length (models w1) in
      let w2 := set_models (models w1 ++ [[]]) w1 in
      let w3 := model_add model (stream_stdout "Loading...") w2 in
      let request :=
        getErrorAnalysis_request
          (plus (PROMPT (Configuration w3))
                (optional_toString (errorMessage errorButton)))
          (SECRET_KEY (Configuration w3)) in
      let w4 := set_posted (posted w3 ++ [request]) w3 in
      let w5 := set_chains (chains w4 ++ [Some (b, model)]) w4 in
      appendChild (cell errorButton) (OutputAreaNode model) w5
  | None => w
  end.

Definition errorButton_onclick (b : nat) (user : User) (w : World) : World :=
  start_request b (credential_guard user w).

(** Lines 186-208, run when [getErrorAnalysis]'s promise has settled:
    [.then] or [.catch], then [.finally]. *)
Definition chain_settled (b model : nat) (r : Settled string) (w : World)
  : World :=
  let w1 :=
    match r with
    | Fulfilled result =>
        let outputText := result in
        model_add model (stream_stdout outputText) (model_clear model w)
    | Rejected error =>
        model_add model (stream_stdout (message error)) (console_error error w)
    end in
  set_disabled b false w1.

(** ** The notebook watcher (lines 94-121) *)

(** [notebook.widgets.forEach(cell => ...)]. *)
Definition forEach_widget (f : nat -> World -> World) (w : World) : World :=
  foldl (fun acc c => f c acc) w (widgets w).

Definition is_code (c : nat) (w : World) : bool :=
  match cells w !! c with
  | Some cl => bool_decide (cell_type cl = code)
  | None => false
  end.

(** Lines 101-105. *)
Definition scan_existing (c : nat) (w : World) : World :=
  if is_code c w then checkForErrors c w else w.

(** Lines 110-118. *)
Definition scan_and_connect (c : nat) (w : World) : World :=
  if is_code c w then connect_changed c (checkForErrors c w) else w.

(** Lines 94-121, the second slot of [notebooks.widgetAdded].  (The first
    slot, lines 71-93, puts [myButton] into the panel's toolbar.) *)
Definition widgetAdded (w : World) : World :=
  if has_model w
  then set_watching true (forEach_widget scan_existing w)
  else w.

(** Lines 108-120, the slot of [notebook.model.cells.changed]. *)
Definition cells_changed (w : World) : World :=
  forEach_widget scan_and_connect w.

(** Lines 115-117: every slot connected to the cell's
    [outputArea.model.changed] runs [checkForErrors] once. *)
Definition outputs_changed (c : nat) (w : World) : World :=
  match cells w !! c with
  | Some cl => Nat.iter (changed_slots cl) (checkForErrors c) w
  | None => w
  end.

(** ** The event loop

    One constructor per handler of the extension, with what the outside
    world supplies to it.  A click reaches [onclick] only on an enabled
    button; a posted request settles at most once. *)
Inductive Event :=
| WidgetAdded
| CellsChanged
| OutputsChanged (c : nat)
| MyButtonClick (user : User)
| ErrorButtonClick (b : nat) (user : User)
| PostSettled (i : nat) (r : Settled ChatCompletion.Response).

Definition handle (e : Event) (w : World) : World :=
  match e with
  | WidgetAdded => widgetAdded w
  | CellsChanged => if watching w then cells_changed w else w
  | OutputsChanged c => outputs_changed c w
  | MyButtonClick user => myButton_onClick user w
  | ErrorButtonClick b user =>
      match buttons w !! b with
      | Some errorButton =>
          if disabled errorButton then w else errorButton_onclick b user w
      | None => w
      end
  | PostSettled i r =>
      match chains w !! i with
      | Some (Some (b, model)) =>
          let w1 := set_chains (<[i := None]> (chains w)) w in
          let (w2, s) := getErrorAnalysis_settled r w1 in
          chain_settled b model s w2
      | _ => w
      end
  end.

Definition run (es : list Event) (w : World) : World :=
  foldl (fun acc e => handle e acc) w es.

(** ** Observations *)

(** The action controls among the children of a cell's node. *)
Definition controls (l : list Node) : list nat :=
  omap (fun n => match n with ButtonNode b => Some b | _ => None end) l.

(** The result areas among the children of a cell's node. *)
Definition result_areas (l : list Node) : list nat :=
  omap (fun n => match n with OutputAreaNode m => Some m | _ => None end) l.

(** The children of the node of cell [c]. *)
Definition node_of (c : nat) (w : World) : list Node :=
  match cells w !! c with
  | Some cl => node cl
  | None => []
  end.

(** The condition under which the watcher attaches a control to a cell. *)
Definition first_output_is_error (cl : Cell) : Prop :=
  exists o rest, outputs cl = o :: rest /\ type o = "error".

(** That a handler run from [w] to [w'] attached a control to cell [c]:
    the cell's node has one more child, a button. *)
Definition attached (c : nat) (w w' : World) : Prop :=
  exists b, node_of c w' = node_of c w ++ [ButtonNode b].

(** Whether button [b] is disabled, if it exists. *)
Definition is_disabled (b : nat) (w : World) : option bool :=
  disabled <$> buttons w !! b.

(** The diagnostic payload of a cell's first output, if it has one. *)
Definition diagnostic (cl : Cell) : option string :=
  match outputs cl !! 0 with
  | Some output0 => data output0 !! "application/vnd.jupyter.stderr"
  | None => None
  end.

(** Cell [c] of [w] has the outputs and the controls of [cl]. *)
Definition same_controls (c : nat) (cl : Cell) (w : World) : Prop :=
  exists cl', cells w !! c = Some cl' /\ outputs cl' = outputs cl
              /\ controls (node cl') = controls (node cl).

Global Instance first_output_is_error_dec (cl : Cell) :
  Decision (first_output_is_error cl).
Proof.
  unfold first_output_is_error.
  destruct (outputs cl) as [|o rest].
  - right. intros (o & rest & H & _). discriminate.
  - destruct (decide (type o = "error")) as [He|He].
    + left. by exists o, rest.
    + right. intros (o' & rest' & H & Ht). by simplify_eq.
Defined.

(** ** Sample notebooks *)

Definition stderr_key : string := "application/vnd.jupyter.stderr".

(** An error output carrying its diagnostic text, and one without it. *)
Definition error_output (msg : string) : IOutputModel :=
  {| type := "error"; data := {[ stderr_key := msg ]} |}.

Definition bare_error_output : IOutputModel :=
  {| type := "error"; data := ∅ |}.

Definition stream_output : IOutputModel :=
  {| type := "stream"; data := {[ "text/plain" := "3" ]} |}.

Definition new_cell (t : CellType) (outs : list IOutputModel) : Cell :=
  {| cell_type := t; outputs := outs; node := [HostNode]; changed_slots := 0 |}.

(** The texts of the samples hold no carriage return and no backspace,
    so what stands for the library's rewriting is never consulted. *)
Definition no_overwriting : string -> string := fun text => text.

(** A freshly opened notebook holding the cells [cs]. *)
Definition notebook_of (cfg : Config) (cs : list Cell) : World :=
  {| Configuration := cfg; has_model := true; watching := false;
     cells := cs; widgets := seq 0 (length cs); buttons := []; models := [];
     posted := []; chains := []; console := [];
     overwritten := no_overwriting |}.

Definition zero_division : string := "ZeroDivisionError: division by zero".

(** One code cell whose execution failed, before and after the watcher's
    first scan. *)
Definition failed_notebook : World :=
  notebook_of Configuration_initial [new_cell code [error_output zero_division]].

Definition watched_notebook : World := widgetAdded failed_notebook.

(** A user who dismisses the dialog, and one who types three values and
    presses OK. *)
Definition cancels : User := fun dialog => {| accept := false; body := dialog |}.

Definition submits (k l p : string) : User :=
  fun _ => {| accept := true; body := new_InputDialog k l p |}.

Definition status_401 : Error :=
  {| message := "Request failed with status code 401" |}.

(** The same notebook with a credential stored. *)
Definition keyed_config : Config :=
  {| SECRET_KEY := "sk-test"; LANGUAGE := "EN"; PROMPT := "P" |}.

(** A code cell whose error output has no diagnostic payload, scanned. *)
Definition bare_notebook : World :=
  widgetAdded (notebook_of keyed_config [new_cell code [bare_error_output]]).

(** What the host does when a cell is executed again: it replaces the
    cell's outputs (and then notifies the slots of the output model). *)
Definition host_set_outputs (c : nat) (outs : list IOutputModel) (w : World)
  : World :=
  match cells w !! c with
  | Some cl =>
      set_cells
        (<[c := {| cell_type := cell_type cl; outputs := outs;
                   node := node cl;
                   changed_slots := changed_slots cl |}]> (cells w)) w
  | None => w
  end.

Definition explained : Settled ChatCompletion.Response :=
  Fulfilled
    {| ChatCompletion.choices :=
         [ {| ChatCompletion.message :=
                {| ChatCompletion.role := "assistant";
                   ChatCompletion.content :=
                     "Error reason: division by zero" |} |} ] |}.

(** The failing cell, watched, analysed once with a stored credential. *)
Definition analysed_notebook : World :=
  run [WidgetAdded; CellsChanged; ErrorButtonClick 0 cancels;
       PostSettled 0 explained]
      (notebook_of keyed_config [new_cell code [error_output zero_division]]).

(** The same cell after it was executed again, this time without error. *)
Definition cleared_notebook : World :=
  host_set_outputs 0 [stream_output] analysed_notebook.

(** The failing cell of [watched_notebook], its control activated with an
    empty stored credential by a user who types one and presses OK. *)
Definition loading_notebook : World :=
  handle (ErrorButtonClick 0 (submits "sk-test" "KR" "P")) watched_notebook.

(** ** Relations between stores *)

(** The notifications of the host, as opposed to clicks and settlements. *)
Definition is_notification (e : Event) : bool :=
  match e with
  | WidgetAdded | CellsChanged | OutputsChanged _ => true
  | _ => false
  end.

Definition is_activation (e : Event) : bool :=
  match e with
  | ErrorButtonClick _ _ => true
  | _ => false
  end.

Definition is_click (e : Event) : bool :=
  match e with
  | MyButtonClick _ | ErrorButtonClick _ _ => true
  | _ => false
  end.

(** [l'] holds every cell of [l], with the same type and outputs, with
    its node extended at the end and with no fewer slots. *)
Definition cells_extend (l l' : list Cell) : Prop :=
  forall c cl, l !! c = Some cl ->
    exists cl', l' !! c = Some cl'
      /\ cell_type cl' = cell_type cl /\ outputs cl' = outputs cl
      /\ node cl `prefix_of` node cl'
      /\ changed_slots cl <= changed_slots cl'.

(** [l'] holds every button of [l], the same but for its [disabled]
    flag. *)
Definition buttons_extend (l l' : list HTMLButtonElement) : Prop :=
  forall b e, l !! b = Some e ->
    exists e', l' !! b = Some e'
      /\ innerText e' = innerText e /\ className e' = className e
      /\ errorMessage e' = errorMessage e /\ cell e' = cell e.

(** The four growing parts of the store, taken together. *)
Definition grown (w v : World) : Prop :=
  cells_extend (cells w) (cells v)
  /\ buttons_extend (buttons w) (buttons v)
  /\ posted w `prefix_of` posted v
  /\ console w `prefix_of` console v.

(** Every control found in a cell's node is a button of the store whose
    [onclick] captured that very cell. *)
Definition controls_in_own_cell (w : World) : Prop :=
  forall c cl b, cells w !! c = Some cl -> ButtonNode b ∈ node cl ->
    exists e, buttons w !! b = Some e /\ cell e = c.

(** The part of the store that only clicks and settlements write. *)
Definition request_state (w : World)
  : Config * list (list IOutput) * list ChatCompletion.Request
    * list (option (nat * nat)) * list Error :=
  (Configuration w, models w, posted w, chains w, console w).

(** The dialog as a handler opens it on the store [w]. *)
Definition opened_dialog (w : World) : InputDialog :=
  new_InputDialog (SECRET_KEY (Configuration w)) (LANGUAGE (Configuration w))
                  (PROMPT (Configuration w)).

(** ** Two failing cells *)

Definition key_error : string := "KeyError: 'x'".

(** A notebook with two failing code cells, scanned on opening, and the
    same with both controls activated before either request settles. *)
Definition two_failures : World :=
  widgetAdded
    (notebook_of keyed_config
       [new_cell code [error_output zero_division];
        new_cell code [error_output key_error]]).

Definition both_loading : World :=
  run [ErrorButtonClick 0 cancels; ErrorButtonClick 1 cancels] two_failures.

(** ** A control that outlives its error *)

(** The failing cell was scanned when the notebook was opened and then
    executed again, failing differently: the host has replaced its outputs,
    the control of the first scan is still among its children. *)
Definition stale_notebook : World :=
  host_set_outputs 0 [error_output key_error]
    (widgetAdded
       (notebook_of keyed_config [new_cell code [error_output zero_division]])).

(** ** A browser and a user for the dialog *)




(** * Properties *)

(** ** What each primitive leaves alone *)

Section Frames.
Implicit Types (w : World) (c b m : nat).

Lemma appendChild_node c n w cl :
  cells w !! c = Some cl ->
  node_of c (appendChild c n w) = node cl ++ [n].
Proof.
  intros Hc. unfold node_of, appendChild. rewrite Hc. simpl.
  rewrite list_lookup_insert_eq; [done|]. by eapply lookup_lt_Some.
Qed.

Lemma appendChild_node_ne c c' n w :
  c <> c' -> node_of c' (appendChild c n w) = node_of c' w.
Proof.
  intros Hne. unfold node_of, appendChild.
  destruct (cells w !! c); [|done]. simpl.
  by rewrite list_lookup_insert_ne.
Qed.

Lemma appendChild_buttons c n w : buttons (appendChild c n w) = buttons w.
Proof. unfold appendChild. by destruct (cells w !! c). Qed.

Lemma appendChild_posted c n w : posted (appendChild c n w) = posted w.
Proof. unfold appendChild. by destruct (cells w !! c). Qed.

Lemma appendChild_models c n w : models (appendChild c n w) = models w.
Proof. unfold appendChild. by destruct (cells w !! c). Qed.

Lemma appendChild_Configuration c n w :
  Configuration (appendChild c n w) = Configuration w.
Proof. unfold appendChild. by destruct (cells w !! c). Qed.

Lemma set_disabled_Configuration b x w :
  Configuration (set_disabled b x w) = Configuration w.
Proof. unfold set_disabled. by destruct (buttons w !! b). Qed.

Lemma set_disabled_models b x w : models (set_disabled b x w) = models w.
Proof. unfold set_disabled. by destruct (buttons w !! b). Qed.

Lemma set_disabled_posted b x w : posted (set_disabled b x w) = posted w.
Proof. unfold set_disabled. by destruct (buttons w !! b). Qed.

Lemma set_disabled_cells b x w : cells (set_disabled b x w) = cells w.
Proof. unfold set_disabled. by destruct (buttons w !! b). Qed.

Lemma set_disabled_is_disabled b x w :
  is_Some (buttons w !! b) -> is_disabled b (set_disabled b x w) = Some x.
Proof.
  intros [e He]. unfold is_disabled, set_disabled. rewrite He. simpl.
  rewrite list_lookup_insert_eq; [done|]. by eapply lookup_lt_Some.
Qed.

Lemma model_add_buttons m o w : buttons (model_add m o w) = buttons w.
Proof. unfold model_add. by destruct (models w !! m). Qed.

Lemma model_clear_buttons m w : buttons (model_clear m w) = buttons w.
Proof. unfold model_clear. by destruct (models w !! m). Qed.

Lemma model_add_Configuration m o w :
  Configuration (model_add m o w) = Configuration w.
Proof. unfold model_add. by destruct (models w !! m). Qed.

Lemma model_add_posted m o w : posted (model_add m o w) = posted w.
Proof. unfold model_add. by destruct (models w !! m). Qed.

Lemma model_add_cells m o w : cells (model_add m o w) = cells w.
Proof. unfold model_add. by destruct (models w !! m). Qed.

Lemma model_clear_cells m w : cells (model_clear m w) = cells w.
Proof. unfold model_clear. by destruct (models w !! m). Qed.

Lemma model_clear_Configuration m w :
  Configuration (model_clear m w) = Configuration w.
Proof. unfold model_clear. by destruct (models w !! m). Qed.

Lemma model_clear_posted m w : posted (model_clear m w) = posted w.
Proof. unfold model_clear. by destruct (models w !! m). Qed.

Lemma model_add_overwritten m o w :
  overwritten (model_add m o w) = overwritten w.
Proof. unfold model_add. by destruct (models w !! m). Qed.

Lemma model_clear_overwritten m w :
  overwritten (model_clear m w) = overwritten w.
Proof. unfold model_clear. by destruct (models w !! m). Qed.

Lemma set_disabled_overwritten b x w :
  overwritten (set_disabled b x w) = overwritten w.
Proof. unfold set_disabled. by destruct (buttons w !! b). Qed.

Lemma appendChild_overwritten c n w :
  overwritten (appendChild c n w) = overwritten w.
Proof. unfold appendChild. by destruct (cells w !! c). Qed.

(** A stream entry whose text holds no carriage return and no backspace
    is stored as it is. *)
Lemma normalized_plain (f : string -> string) (text : string) :
  overwrites text = false ->
  normalized f (stream_stdout text) = stream_stdout text.
Proof.
  intros H. unfold normalized, removeOverwrittenChars. simpl. by rewrite H.
Qed.

Lemma model_add_fresh text w :
  overwrites text = false ->
  model_add (length (models w)) (stream_stdout text)
    (set_models (models w ++ [[]]) w)
  = set_models (models w ++ [[stream_stdout text]]) w.
Proof.
  intros H. unfold model_add. simpl.
  rewrite lookup_app_r, Nat.sub_diag by lia. simpl.
  unfold OutputAreaModel_add. simpl. rewrite (normalized_plain _ _ H).
  unfold set_models. simpl. f_equal.
  rewrite insert_app_r_alt, Nat.sub_diag by lia. done.
Qed.
End Frames.

Create Rewrite HintDb store.
#[global] Hint Rewrite appendChild_buttons appendChild_posted appendChild_models
  appendChild_Configuration set_disabled_Configuration set_disabled_models
  set_disabled_posted set_disabled_cells model_add_buttons model_clear_buttons
  model_add_Configuration model_add_posted model_add_cells
  model_clear_cells model_clear_Configuration model_clear_posted
  model_add_overwritten model_clear_overwritten set_disabled_overwritten
  appendChild_overwritten : store.
#[global] Hint Rewrite model_add_fresh using reflexivity : store.

(** Push a projection of the store through the primitives. *)
Ltac store_simpl := repeat progress (simpl; autorewrite with store).

(** ** One scan of one cell *)

Section Scan.
Implicit Types (w : World) (c b : nat) (cl : Cell).

Lemma checkForErrors_missing c w :
  cells w !! c = None -> checkForErrors c w = w.
Proof. intros H. unfold checkForErrors. by rewrite H. Qed.

Lemma checkForErrors_unflagged c w cl :
  cells w !! c = Some cl -> ~ first_output_is_error cl ->
  checkForErrors c w = w.
Proof.
  intros Hc Hn. unfold checkForErrors. rewrite Hc.
  destruct (outputs cl) as [|o rest] eqn:Ho; simpl; [done|].
  case_bool_decide as Ht; [|done].
  exfalso. apply Hn. by exists o, rest.
Qed.

Lemma checkForErrors_flagged c w cl :
  cells w !! c = Some cl -> first_output_is_error cl ->
  checkForErrors c w
  = appendChild c (ButtonNode (length (buttons w)))
      (set_buttons (buttons w ++ [new_errorButton (diagnostic cl) c]) w).
Proof.
  intros Hc (o & rest & Ho & Ht). unfold checkForErrors, diagnostic.
  rewrite Hc, Ho. simpl.
  by rewrite (bool_decide_eq_true_2 (type o = "error")).
Qed.

Lemma checkForErrors_flagged_node c w cl :
  cells w !! c = Some cl -> first_output_is_error cl ->
  node_of c (checkForErrors c w) = node cl ++ [ButtonNode (length (buttons w))].
Proof.
  intros Hc Hf. rewrite (checkForErrors_flagged c w cl Hc Hf).
  by apply appendChild_node.
Qed.

Lemma checkForErrors_flagged_buttons c w cl :
  cells w !! c = Some cl -> first_output_is_error cl ->
  buttons (checkForErrors c w)
  = buttons w ++ [new_errorButton (diagnostic cl) c].
Proof.
  intros Hc Hf. rewrite (checkForErrors_flagged c w cl Hc Hf).
  by rewrite appendChild_buttons.
Qed.

(** A scan changes nothing of the scanned cell but its node. *)
Lemma checkForErrors_cell c w cl :
  cells w !! c = Some cl ->
  exists cl', cells (checkForErrors c w) !! c = Some cl'
    /\ cell_type cl' = cell_type cl /\ outputs cl' = outputs cl
    /\ changed_slots cl' = changed_slots cl.
Proof.
  intros Hc. destruct (decide (first_output_is_error cl)) as [Hf|Hf].
  - rewrite (checkForErrors_flagged c w cl Hc Hf).
    unfold appendChild. simpl. rewrite Hc. simpl.
    rewrite list_lookup_insert_eq by (by eapply lookup_lt_Some).
    eexists. split; [done|]. done.
  - rewrite (checkForErrors_unflagged c w cl Hc Hf). by exists cl.
Qed.

(** A scan of one cell leaves every other cell as it was. *)
Lemma checkForErrors_other c c' w :
  c <> c' -> cells (checkForErrors c w) !! c' = cells w !! c'.
Proof.
  intros Hne. destruct (cells w !! c) as [cl|] eqn:Hc.
  - destruct (decide (first_output_is_error cl)) as [Hf|Hf].
    + rewrite (checkForErrors_flagged c w cl Hc Hf).
      unfold appendChild. simpl. rewrite Hc. simpl.
      by rewrite list_lookup_insert_ne.
    + by rewrite (checkForErrors_unflagged c w cl Hc Hf).
  - by rewrite checkForErrors_missing.
Qed.

Lemma checkForErrors_buttons_length c w cl :
  cells w !! c = Some cl -> first_output_is_error cl ->
  length (buttons (checkForErrors c w)) = S (length (buttons w)).
Proof.
  intros Hc Hf. rewrite (checkForErrors_flagged_buttons c w cl Hc Hf).
  rewrite length_app. simpl. lia.
Qed.

Lemma controls_app l1 l2 : controls (l1 ++ l2) = controls l1 ++ controls l2.
Proof. unfold controls. apply omap_app. Qed.

Lemma result_areas_app l1 l2 :
  result_areas (l1 ++ l2) = result_areas l1 ++ result_areas l2.
Proof. unfold result_areas. apply omap_app. Qed.
End Scan.

(** ** One activation of a control *)

Section Activation.
Implicit Types (w : World) (b : nat) (user : User).

Lemma configure_buttons user w : buttons (configure user w) = buttons w.
Proof. unfold configure. by destruct (accept _). Qed.

Lemma configure_posted user w : posted (configure user w) = posted w.
Proof. unfold configure. by destruct (accept _). Qed.

Lemma configure_models user w : models (configure user w) = models w.
Proof. unfold configure. by destruct (accept _). Qed.

Lemma configure_cells user w : cells (configure user w) = cells w.
Proof. unfold configure. by destruct (accept _). Qed.

Lemma credential_guard_buttons user w :
  buttons (credential_guard user w) = buttons w.
Proof.
  unfold credential_guard. destruct (negb _); [apply configure_buttons|done].
Qed.

Lemma credential_guard_posted user w :
  posted (credential_guard user w) = posted w.
Proof.
  unfold credential_guard. destruct (negb _); [apply configure_posted|done].
Qed.

Lemma credential_guard_models user w :
  models (credential_guard user w) = models w.
Proof.
  unfold credential_guard. destruct (negb _); [apply configure_models|done].
Qed.

Lemma credential_guard_cells user w :
  cells (credential_guard user w) = cells w.
Proof.
  unfold credential_guard. destruct (negb _); [apply configure_cells|done].
Qed.

Lemma optional_toString_id v : optional_toString v = v.
Proof. by destruct v. Qed.

Lemma start_request_Configuration b w :
  Configuration (start_request b w) = Configuration w.
Proof.
  unfold start_request. destruct (buttons w !! b) as [e|] eqn:He; [|done].
  by store_simpl.
Qed.

Lemma start_request_posted b w e :
  buttons w !! b = Some e ->
  posted (start_request b w)
  = posted w ++ [getErrorAnalysis_request
                   (plus (PROMPT (Configuration w)) (errorMessage e))
                   (SECRET_KEY (Configuration w))].
Proof.
  intros He. unfold start_request. rewrite He.
  store_simpl. by rewrite optional_toString_id.
Qed.

Lemma start_request_models b w e :
  buttons w !! b = Some e ->
  models (start_request b w)
  = models w ++ [[stream_stdout "Loading..."]].
Proof.
  intros He. unfold start_request. rewrite He.
  by store_simpl.
Qed.

Lemma start_request_is_disabled b w :
  is_Some (buttons w !! b) -> is_disabled b (start_request b w) = Some true.
Proof.
  intros [e He]. unfold start_request. rewrite He.
  unfold is_disabled. store_simpl.
  apply (set_disabled_is_disabled b true w). by exists e.
Qed.

Lemma start_request_node b w e :
  buttons w !! b = Some e ->
  is_Some (cells w !! cell e) ->
  node_of (cell e) (start_request b w)
  = node_of (cell e) w ++ [OutputAreaNode (length (models w))].
Proof.
  intros He [cl Hc]. unfold start_request. rewrite He.
  rewrite (appendChild_node _ _ _ cl).
  - unfold node_of. rewrite Hc. by store_simpl.
  - by store_simpl.
Qed.
End Activation.

(** ** Settlement of a request *)

Section Settlement.
Implicit Types (w : World) (b model i : nat).

Lemma getErrorAnalysis_settled_buttons r w :
  buttons (getErrorAnalysis_settled r w).1 = buttons w.
Proof.
  destruct r as [d|e]; simpl; [|done].
  by destruct (ChatCompletion.choices d !! 0).
Qed.

Lemma getErrorAnalysis_settled_models r w :
  models (getErrorAnalysis_settled r w).1 = models w.
Proof.
  destruct r as [d|e]; simpl; [|done].
  by destruct (ChatCompletion.choices d !! 0).
Qed.

Lemma chain_settled_is_disabled b model r w :
  is_Some (buttons w !! b) ->
  is_disabled b (chain_settled b model r w) = Some false.
Proof.
  intros Hb. unfold chain_settled.
  apply set_disabled_is_disabled.
  destruct r; by store_simpl.
Qed.

Lemma model_add_lookup model o w l :
  models w !! model = Some l ->
  models (model_add model o w) !! model
  = Some (OutputAreaModel_add (overwritten w) l o).
Proof.
  intros Hm. unfold model_add. rewrite Hm. simpl.
  rewrite list_lookup_insert_eq; [done|]. by eapply lookup_lt_Some.
Qed.

Lemma model_clear_lookup model w l :
  models w !! model = Some l ->
  models (model_clear model w) !! model = Some [].
Proof.
  intros Hm. unfold model_clear. rewrite Hm. simpl.
  rewrite list_lookup_insert_eq; [done|]. by eapply lookup_lt_Some.
Qed.

Lemma set_disabled_models_lookup b x w model :
  models (set_disabled b x w) !! model = models w !! model.
Proof. by rewrite set_disabled_models. Qed.

(** [.then] replaces the placeholder by the explanation. *)
Lemma chain_fulfilled_model b model result w l :
  models w !! model = Some l ->
  models (chain_settled b model (Fulfilled result) w) !! model
  = Some [normalized (overwritten w) (stream_stdout result)].
Proof.
  intros Hm. unfold chain_settled. rewrite set_disabled_models.
  rewrite (model_add_lookup _ _ _ []); [|by eapply model_clear_lookup].
  by rewrite model_clear_overwritten.
Qed.

(** [.catch] adds the message to whatever the model holds. *)
Lemma chain_rejected_model b model error w l :
  models w !! model = Some l ->
  models (chain_settled b model (Rejected error) w) !! model
  = Some (OutputAreaModel_add (overwritten w) l
            (stream_stdout (message error))).
Proof.
  intros Hm. unfold chain_settled. rewrite set_disabled_models.
  by rewrite (model_add_lookup _ _ _ l).
Qed.
End Settlement.

(** ** Cells without an error keep their controls *)

Section NoError.
Implicit Types (w : World) (c b : nat) (cl : Cell).

Lemma first_output_is_error_outputs cl cl' :
  outputs cl' = outputs cl ->
  first_output_is_error cl' <-> first_output_is_error cl.
Proof. intros H. unfold first_output_is_error. by rewrite H. Qed.

Lemma same_controls_cells c cl w w' :
  cells w' = cells w -> same_controls c cl w -> same_controls c cl w'.
Proof. intros H. unfold same_controls. by rewrite H. Qed.

Lemma same_controls_checkForErrors c c' cl w :
  ~ first_output_is_error cl ->
  same_controls c cl w -> same_controls c cl (checkForErrors c' w).
Proof.
  intros Hn (cl' & Hc & Ho & Hk).
  destruct (decide (c' = c)) as [->|Hne].
  - rewrite (checkForErrors_unflagged c w cl' Hc).
    + by exists cl'.
    + by rewrite (first_output_is_error_outputs cl cl').
  - exists cl'. by rewrite checkForErrors_other.
Qed.

Lemma same_controls_connect_changed c c' cl w :
  same_controls c cl w -> same_controls c cl (connect_changed c' w).
Proof.
  intros (cl' & Hc & Ho & Hk). unfold connect_changed.
  destruct (cells w !! c') as [x|] eqn:Hx; [|by exists cl'].
  destruct (decide (c' = c)) as [->|Hne].
  - eexists. simpl.
    rewrite list_lookup_insert_eq by (by eapply lookup_lt_Some).
    split; [done|]. simpl. by simplify_eq.
  - exists cl'. simpl. by rewrite list_lookup_insert_ne.
Qed.

Lemma same_controls_appendChild_area c c' m cl w :
  same_controls c cl w ->
  same_controls c cl (appendChild c' (OutputAreaNode m) w).
Proof.
  intros (cl' & Hc & Ho & Hk). unfold appendChild.
  destruct (cells w !! c') as [x|] eqn:Hx; [|by exists cl'].
  destruct (decide (c' = c)) as [->|Hne].
  - eexists. simpl.
    rewrite list_lookup_insert_eq by (by eapply lookup_lt_Some).
    split; [done|]. simpl. simplify_eq.
    split; [done|]. rewrite controls_app. simpl. by rewrite app_nil_r.
  - exists cl'. simpl. by rewrite list_lookup_insert_ne.
Qed.

Lemma foldl_invariant {A} (P : World -> Prop) (f : World -> A -> World)
    (l : list A) w :
  (forall x v, P v -> P (f v x)) -> P w -> P (foldl f w l).
Proof.
  intros Hf. revert w. induction l as [|x l IH]; simpl; auto.
Qed.

Lemma iter_invariant (P : World -> Prop) (f : World -> World) n w :
  (forall v, P v -> P (f v)) -> P w -> P (Nat.iter n f w).
Proof. intros Hf Hw. induction n as [|n IH]; simpl; auto. Qed.

Lemma same_controls_start_request c b cl w :
  same_controls c cl w -> same_controls c cl (start_request b w).
Proof.
  intros H. unfold start_request.
  destruct (buttons w !! b) as [e|]; [|done].
  apply same_controls_appendChild_area.
  eapply same_controls_cells; [|exact H]. by store_simpl.
Qed.

Lemma chain_settled_cells b model r w :
  cells (chain_settled b model r w) = cells w.
Proof.
  unfold chain_settled. destruct r; by store_simpl.
Qed.

Lemma getErrorAnalysis_settled_cells r w :
  cells (getErrorAnalysis_settled r w).1 = cells w.
Proof.
  destruct r as [d|e]; simpl; [|done].
  by destruct (ChatCompletion.choices d !! 0).
Qed.

Lemma same_controls_handle e c cl w :
  ~ first_output_is_error cl ->
  same_controls c cl w -> same_controls c cl (handle e w).
Proof.
  intros Hn H. destruct e as [| |c'|user|b user|i r]; simpl.
  - unfold widgetAdded. destruct (has_model w); [|done].
    eapply same_controls_cells; [done|].
    unfold forEach_widget. apply foldl_invariant; [|done].
    intros x v Hv. unfold scan_existing. destruct (is_code x v); [|done].
    by apply same_controls_checkForErrors.
  - destruct (watching w); [|done].
    unfold cells_changed, forEach_widget. apply foldl_invariant; [|done].
    intros x v Hv. unfold scan_and_connect. destruct (is_code x v); [|done].
    by apply same_controls_connect_changed, same_controls_checkForErrors.
  - unfold outputs_changed. destruct (cells w !! c'); [|done].
    apply iter_invariant; [|done].
    intros v Hv. by apply same_controls_checkForErrors.
  - eapply same_controls_cells; [|exact H].
    unfold myButton_onClick. apply configure_cells.
  - destruct (buttons w !! b) as [eb|]; [|done].
    destruct (disabled eb); [done|].
    unfold errorButton_onclick. apply same_controls_start_request.
    eapply same_controls_cells; [|exact H]. apply credential_guard_cells.
  - destruct (chains w !! i) as [[[b model]|]|]; try done.
    destruct (getErrorAnalysis_settled r _) as [w2 s] eqn:Hg.
    eapply same_controls_cells; [|exact H].
    rewrite chain_settled_cells.
    change w2 with (w2, s).1. rewrite <- Hg.
    by rewrite getErrorAnalysis_settled_cells.
Qed.

Lemma same_controls_run es c cl w :
  ~ first_output_is_error cl ->
  same_controls c cl w -> same_controls c cl (run es w).
Proof.
  intros Hn. unfold run. apply foldl_invariant.
  intros e v Hv. by apply same_controls_handle.
Qed.
End NoError.

(** ** The watcher's scans *)

Section Watcher.
Implicit Types (w : World) (c b : nat) (cl : Cell).

Lemma node_of_connect_changed c c' w :
  node_of c (connect_changed c' w) = node_of c w.
Proof.
  unfold node_of, connect_changed.
  destruct (cells w !! c') as [x|] eqn:Hx; [|done]. simpl.
  destruct (decide (c' = c)) as [->|Hne].
  - rewrite list_lookup_insert_eq by (by eapply lookup_lt_Some).
    by rewrite Hx.
  - by rewrite list_lookup_insert_ne.
Qed.

Lemma not_attached_same c w w' :
  node_of c w' = node_of c w -> ~ attached c w w'.
Proof.
  intros H [b Hb]. rewrite H in Hb.
  apply (f_equal length) in Hb. rewrite length_app in Hb. simpl in Hb. lia.
Qed.

Lemma is_code_true c w cl :
  cells w !! c = Some cl -> is_code c w = true <-> cell_type cl = code.
Proof.
  intros H. unfold is_code. rewrite H. apply bool_decide_eq_true.
Qed.

Lemma first_output_is_error_lookup cl :
  first_output_is_error cl
  <-> outputs cl <> [] /\ exists o, outputs cl !! 0 = Some o /\ type o = "error".
Proof.
  unfold first_output_is_error. split.
  - intros (o & rest & Ho & Ht). rewrite Ho. split; [done|]. by exists o.
  - intros [_ (o & Ho & Ht)]. destruct (outputs cl) as [|o' rest]; [done|].
    simpl in Ho. simplify_eq. by exists o, rest.
Qed.

Lemma scan_existing_attached c w cl :
  cells w !! c = Some cl ->
  attached c w (scan_existing c w)
  <-> cell_type cl = code /\ first_output_is_error cl.
Proof.
  intros Hc. unfold scan_existing.
  destruct (is_code c w) eqn:Hk.
  - apply (is_code_true c w cl Hc) in Hk.
    destruct (decide (first_output_is_error cl)) as [Hf|Hf].
    + split; [done|]. intros _. exists (length (buttons w)).
      rewrite (checkForErrors_flagged_node c w cl Hc Hf).
      unfold node_of. by rewrite Hc.
    + rewrite (checkForErrors_unflagged c w cl Hc Hf).
      split; [|tauto]. intros H. by apply not_attached_same in H.
  - split.
    + intros H. by apply not_attached_same in H.
    + intros [Hcode _]. apply (is_code_true c w cl Hc) in Hcode. congruence.
Qed.

Lemma scan_and_connect_attached c w cl :
  cells w !! c = Some cl ->
  attached c w (scan_and_connect c w)
  <-> cell_type cl = code /\ first_output_is_error cl.
Proof.
  intros Hc. unfold scan_and_connect.
  destruct (is_code c w) eqn:Hk.
  - apply (is_code_true c w cl Hc) in Hk.
    destruct (decide (first_output_is_error cl)) as [Hf|Hf].
    + split; [done|]. intros _. exists (length (buttons w)).
      rewrite node_of_connect_changed.
      rewrite (checkForErrors_flagged_node c w cl Hc Hf).
      unfold node_of. by rewrite Hc.
    + rewrite (checkForErrors_unflagged c w cl Hc Hf).
      split; [|tauto]. intros H. apply not_attached_same in H; [done|].
      apply node_of_connect_changed.
  - split.
    + intros H. by apply not_attached_same in H.
    + intros [Hcode _]. apply (is_code_true c w cl Hc) in Hcode. congruence.
Qed.

(** Repeated scans of a cell whose error persists. *)
Lemma rescans_state n c w cl :
  cells w !! c = Some cl -> first_output_is_error cl ->
  exists cl', cells (Nat.iter n (checkForErrors c) w) !! c = Some cl'
    /\ outputs cl' = outputs cl
    /\ node cl' = node cl ++ (ButtonNode <$> seq (length (buttons w)) n)
    /\ length (buttons (Nat.iter n (checkForErrors c) w))
       = length (buttons w) + n.
Proof.
  intros Hc Hf. induction n as [|n (cl' & Hc' & Ho & Hn & Hl)].
  - exists cl. simpl. rewrite app_nil_r. split_and!; [done..|lia].
  - change (Nat.iter (S n) (checkForErrors c) w)
      with (checkForErrors c (Nat.iter n (checkForErrors c) w)).
    set (v := Nat.iter n (checkForErrors c) w) in *.
    assert (Hf' : first_output_is_error cl').
    { by apply (first_output_is_error_outputs cl cl'). }
    pose proof (checkForErrors_flagged_node c v cl' Hc' Hf') as Hnode.
    destruct (checkForErrors_cell c v cl' Hc') as (cl'' & Hc'' & _ & Ho'' & _).
    exists cl''. split_and!; [done|congruence| |].
    + unfold node_of in Hnode. rewrite Hc'' in Hnode. rewrite Hnode, Hn, Hl.
      rewrite seq_S, fmap_app, app_assoc. done.
    + rewrite (checkForErrors_buttons_length c v cl' Hc' Hf'). lia.
Qed.
End Watcher.

(** C5. A scan of a cell attaches an action control if and only if the
    cell is a code cell, its output list is non-empty and its first output
    is tagged "error" (for the initial scan of lines 100-106 and for the
    re-scan of lines 109-119); and whatever handlers of the extension run,
    in whatever order, a cell whose first output is not tagged "error"
    keeps exactly the controls it had. *)
Theorem scan_flags_exactly_error_cells (w : World) (c : nat) (cl : Cell) :
  cells w !! c = Some cl ->
  (attached c w (scan_existing c w)
   <-> cell_type cl = code /\ outputs cl <> []
       /\ exists o, outputs cl !! 0 = Some o /\ type o = "error")
  /\ (attached c w (scan_and_connect c w)
      <-> cell_type cl = code /\ outputs cl <> []
          /\ exists o, outputs cl !! 0 = Some o /\ type o = "error")
  /\ (forall es : list Event,
        (exists o, outputs cl !! 0 = Some o /\ type o = "error")
        \/ controls (node_of c (run es w)) = controls (node cl)).
Proof.
  intros Hc. rewrite <- first_output_is_error_lookup. split_and!.
  - by apply scan_existing_attached.
  - by apply scan_and_connect_attached.
  - intros es. destruct (decide (first_output_is_error cl)) as [Hf|Hf].
    + left. apply first_output_is_error_lookup in Hf. tauto.
    + right.
      destruct (same_controls_run es c cl w Hf) as (cl' & Hc' & _ & Hk).
      { by exists cl. }
      unfold node_of. by rewrite Hc'.
Qed.

Lemma scan_flags_exactly_error_cells_witness :
  attached 0 failed_notebook (scan_existing 0 failed_notebook)
  /\ controls (node_of 0 (run [WidgetAdded; CellsChanged; OutputsChanged 0]
                            cleared_notebook)) = [0; 1].
Proof.
  pose proof (scan_flags_exactly_error_cells failed_notebook 0
    (new_cell code [error_output zero_division]) eq_refl) as (H1 & _ & _).
  destruct (scan_flags_exactly_error_cells cleared_notebook 0
    {| cell_type := code; outputs := [stream_output];
       node := [HostNode; ButtonNode 0; ButtonNode 1; OutputAreaNode 0];
       changed_slots := 1 |} eq_refl) as (_ & _ & H3).
  split.
  - apply H1. split_and!; [done|done|]. by eexists.
  - destruct (H3 [WidgetAdded; CellsChanged; OutputsChanged 0])
      as [(o & Ho & Ht)|H]; [|exact H].
    injection Ho as <-. discriminate Ht.
Defined.

Lemma controls_ButtonNode (l : list nat) : controls (ButtonNode <$> l) = l.
Proof.
  induction l as [|b l IH]; [done|].
  change (controls (ButtonNode <$> b :: l))
    with (b :: controls (ButtonNode <$> l)).
  by rewrite IH.
Qed.

(** C2, as the code has it. For every cell whose first output is tagged
    "error", each re-scan of the cell appends one new action control to the
    cell's render region and leaves the earlier ones in place: after [n]
    scans the region holds the controls it had, followed by [n] new ones;
    an output-mutation notification runs one such scan per connected slot.
    A pre-existing control is kept, not replaced. *)
Theorem rescans_append_controls (n : nat) (w : World) (c : nat) (cl : Cell) :
  cells w !! c = Some cl ->
  first_output_is_error cl ->
  controls (node_of c (Nat.iter n (checkForErrors c) w))
  = controls (node cl) ++ seq (length (buttons w)) n
  /\ controls (node_of c (outputs_changed c w))
     = controls (node cl) ++ seq (length (buttons w)) (changed_slots cl).
Proof.
  intros Hc Hf.
  assert (Hn : forall k, controls (node_of c (Nat.iter k (checkForErrors c) w))
                         = controls (node cl) ++ seq (length (buttons w)) k).
  { intros k.
    destruct (rescans_state k c w cl Hc Hf) as (cl' & Hc' & _ & Hk & _).
    unfold node_of. rewrite Hc', Hk, controls_app.
    by rewrite controls_ButtonNode. }
  split; [apply Hn|].
  unfold outputs_changed. rewrite Hc. apply Hn.
Qed.

Lemma rescans_append_controls_witness :
  controls (node_of 0 (Nat.iter 2 (checkForErrors 0)
                         (run [CellsChanged] watched_notebook)))
  = [0; 1; 2; 3]
  /\ controls (node_of 0 (outputs_changed 0
                            (run [CellsChanged] watched_notebook)))
     = [0; 1; 2].
Proof.
  apply (rescans_append_controls 2 (run [CellsChanged] watched_notebook) 0
           {| cell_type := code; outputs := [error_output zero_division];
              node := [HostNode; ButtonNode 0; ButtonNode 1];
              changed_slots := 1 |}).
  - reflexivity.
  - exists (error_output zero_division), []. split; reflexivity.
Defined.

(** C2 as stated fails: the failing cell already carries the control of
    the initial scan; one structural notification later, with the error
    still there, it carries two. *)
Lemma rescan_leaves_two_controls :
  controls (node_of 0 (run [CellsChanged] watched_notebook)) = [0; 1]
  /\ ~ (exists b, controls (node_of 0 (run [CellsChanged] watched_notebook))
                  = [b]).
Proof.
  split; [reflexivity|]. intros [b Hb]. vm_compute in Hb. discriminate Hb.
Qed.

(** C3, as the code has it. When a scan finds no first output tagged
    "error", it changes nothing: the cell's action controls and rendered
    result regions stay where they are, whether the scan is run directly or
    by the slots of an output-mutation notification. *)
Theorem scan_without_error_changes_nothing (w : World) (c : nat) (cl : Cell) :
  cells w !! c = Some cl ->
  ~ first_output_is_error cl ->
  checkForErrors c w = w /\ outputs_changed c w = w.
Proof.
  intros Hc Hn. split.
  - by apply (checkForErrors_unflagged c w cl).
  - unfold outputs_changed. rewrite Hc.
    apply (iter_invariant (fun v => v = w)); [|done].
    intros v ->. by apply (checkForErrors_unflagged c w cl).
Qed.

Lemma scan_without_error_changes_nothing_witness :
  checkForErrors 0 cleared_notebook = cleared_notebook
  /\ outputs_changed 0 cleared_notebook = cleared_notebook.
Proof.
  apply (scan_without_error_changes_nothing cleared_notebook 0
           {| cell_type := code; outputs := [stream_output];
              node := [HostNode; ButtonNode 0; ButtonNode 1; OutputAreaNode 0];
              changed_slots := 1 |}).
  - reflexivity.
  - intros (o & rest & Ho & Ht). injection Ho as <- _. discriminate Ht.
Defined.

(** C3 as stated fails: the analysed cell was executed again without error;
    the scan run by the output notification leaves both controls and the
    result region in the cell. *)
Lemma cleared_cell_keeps_control_and_result :
  controls (node_of 0 (handle (OutputsChanged 0) cleared_notebook)) = [0; 1]
  /\ result_areas (node_of 0 (handle (OutputsChanged 0) cleared_notebook)) = [0]
  /\ ~ (controls (node_of 0 (handle (OutputsChanged 0) cleared_notebook)) = []
        /\ result_areas (node_of 0 (handle (OutputsChanged 0) cleared_notebook))
           = []).
Proof.
  split_and!; [reflexivity|reflexivity|].
  intros [H _]. vm_compute in H. discriminate H.
Qed.

(** ** The credential guard *)

Lemma credential_guard_cancelled (user : User) (w : World) :
  accept (user (new_InputDialog (SECRET_KEY (Configuration w))
                                (LANGUAGE (Configuration w))
                                (PROMPT (Configuration w)))) = false ->
  credential_guard user w = w.
Proof.
  intros Ha. unfold credential_guard, configure, showDialog.
  rewrite Ha. by destruct (negb _).
Qed.

(** C1, as the code has it. If the action control is activated while the
    stored credential is empty and the user cancels the configuration
    dialog, the stored configuration is left as it was and the run goes on
    to Loading: the control is disabled, a result region showing
    "Loading..." is created, and one completion request is issued, with the
    empty credential. *)
Theorem cancelled_dialog_still_requests
    (w : World) (b : nat) (errorButton : HTMLButtonElement) (user : User) :
  buttons w !! b = Some errorButton ->
  SECRET_KEY (Configuration w) = "" ->
  accept (user (new_InputDialog (SECRET_KEY (Configuration w))
                                (LANGUAGE (Configuration w))
                                (PROMPT (Configuration w)))) = false ->
  Configuration (errorButton_onclick b user w) = Configuration w
  /\ is_disabled b (errorButton_onclick b user w) = Some true
  /\ models (errorButton_onclick b user w)
     = models w ++ [[stream_stdout "Loading..."]]
  /\ posted (errorButton_onclick b user w)
     = posted w ++ [getErrorAnalysis_request
                      (plus (PROMPT (Configuration w))
                            (errorMessage errorButton)) ""].
Proof.
  intros Hb Hk Ha. unfold errorButton_onclick.
  rewrite (credential_guard_cancelled user w Ha). split_and!.
  - apply start_request_Configuration.
  - apply start_request_is_disabled. by exists errorButton.
  - by apply (start_request_models b w errorButton).
  - rewrite (start_request_posted b w errorButton Hb). by rewrite Hk.
Qed.

Lemma cancelled_dialog_still_requests_witness :
  Configuration (errorButton_onclick 0 cancels watched_notebook)
  = Configuration_initial
  /\ is_disabled 0 (errorButton_onclick 0 cancels watched_notebook) = Some true
  /\ models (errorButton_onclick 0 cancels watched_notebook)
     = [[stream_stdout "Loading..."]]
  /\ posted (errorButton_onclick 0 cancels watched_notebook)
     = [getErrorAnalysis_request
          (PROMPT Configuration_initial +:+ zero_division) ""].
Proof.
  apply (cancelled_dialog_still_requests watched_notebook 0
           (new_errorButton (Some zero_division) 0) cancels);
    reflexivity.
Defined.

(** C1 as stated fails: with the initial, empty credential the user
    dismisses the dialog, and the activation posts a request all the same
    and leaves the control disabled. *)
Lemma cancel_does_not_stop_the_request :
  SECRET_KEY (Configuration watched_notebook) = ""
  /\ accept (cancels (new_InputDialog "" "KR" (PROMPT Configuration_initial)))
     = false
  /\ posted (handle (ErrorButtonClick 0 cancels) watched_notebook)
     <> posted watched_notebook
  /\ is_disabled 0 (handle (ErrorButtonClick 0 cancels) watched_notebook)
     <> is_disabled 0 watched_notebook.
Proof.
  split_and!; [reflexivity|reflexivity| |];
    intros H; vm_compute in H; discriminate H.
Qed.

(** ** A rejected request *)

(** C4 does not hold of the code. The request of [loading_notebook] is
    rejected with status 401: [.catch] adds the message without clearing
    the model, so the result region shows the placeholder and then the
    message, where [.then] shows the explanation alone. *)
Theorem rejected_request_keeps_placeholder :
  (shown <$> models (handle (PostSettled 0 (Rejected status_401))
                            loading_notebook) !! 0)
  = Some "Loading...Request failed with status code 401"
  /\ models (handle (PostSettled 0 explained) loading_notebook) !! 0
     = Some [stream_stdout "Error reason: division by zero"].
Proof. split; reflexivity. Qed.

(** ** The configuration dialog *)

(** C6. Accepting the dialog makes the stored configuration exactly the
    three submitted values, cancelling leaves it as it was: for the toolbar
    button, and for the dialog an activation opens when the stored
    credential is empty (an activation with a credential opens none). *)
Theorem dialog_round_trip (w : World) (b : nat) (user : User) :
  let closing :=
    user (new_InputDialog (SECRET_KEY (Configuration w))
                          (LANGUAGE (Configuration w))
                          (PROMPT (Configuration w))) in
  let submitted :=
    {| SECRET_KEY := secret_key (body closing);
       LANGUAGE := language (body closing);
       PROMPT := prompt (body closing) |} in
  Configuration (myButton_onClick user w)
  = (if accept closing then submitted else Configuration w)
  /\ Configuration (errorButton_onclick b user w)
     = (if truthy (SECRET_KEY (Configuration w)) then Configuration w
        else if accept closing then submitted else Configuration w).
Proof.
  simpl. split.
  - unfold myButton_onClick, configure, showDialog, getValue.
    by destruct (accept _).
  - unfold errorButton_onclick. rewrite start_request_Configuration.
    unfold credential_guard, configure, showDialog, getValue.
    destruct (truthy _); simpl; [done|]. by destruct (accept _).
Qed.

(** The round trip of the specification's example. *)
Example round_trip_k1_EN_P :
  Configuration (myButton_onClick (submits "k1" "EN" "P") watched_notebook)
  = {| SECRET_KEY := "k1"; LANGUAGE := "EN"; PROMPT := "P" |}
  /\ Configuration (myButton_onClick cancels watched_notebook)
     = Configuration_initial.
Proof. split; reflexivity. Qed.

(** ** Re-enabling the control *)

(** C7. When the request of an activation settles, fulfilled or rejected
    (a malformed answer included), the activation's control ends up
    enabled. *)
Theorem control_enabled_after_settlement
    (w : World) (i b model : nat) (r : Settled ChatCompletion.Response) :
  chains w !! i = Some (Some (b, model)) ->
  is_Some (buttons w !! b) ->
  is_disabled b (handle (PostSettled i r) w) = Some false.
Proof.
  intros Hi Hb. simpl. rewrite Hi.
  destruct (getErrorAnalysis_settled r _) as [w2 s] eqn:Hg.
  apply chain_settled_is_disabled.
  change w2 with (w2, s).1. rewrite <- Hg.
  by rewrite getErrorAnalysis_settled_buttons.
Qed.

Lemma control_enabled_after_settlement_witness :
  is_disabled 0 loading_notebook = Some true
  /\ is_disabled 0 (handle (PostSettled 0 (Rejected status_401))
                           loading_notebook) = Some false.
Proof.
  split; [reflexivity|].
  apply (control_enabled_after_settlement loading_notebook 0 0 0).
  - reflexivity.
  - eexists. reflexivity.
Defined.

(** The scenario of the specification, end to end: the cell fails, the
    watcher attaches the control, the user clicks it with no credential
    stored, enters one and accepts, the placeholder shows, the request is
    answered, the explanation replaces the placeholder and the control is
    enabled again. *)
Example scenario_division_by_zero :
  controls (node_of 0 watched_notebook) = [0]
  /\ SECRET_KEY (Configuration loading_notebook) = "sk-test"
  /\ (shown <$> models loading_notebook !! 0) = Some "Loading..."
  /\ is_disabled 0 loading_notebook = Some true
  /\ (shown <$> models (handle (PostSettled 0 explained) loading_notebook) !! 0)
     = Some "Error reason: division by zero"
  /\ is_disabled 0 (handle (PostSettled 0 explained) loading_notebook)
     = Some false.
Proof. split_and!; reflexivity. Qed.

(** ** The request *)

(** An activation of the control a scan has just attached. *)
Lemma fresh_control_request (w : World) (c : nat) (cl : Cell) (user : User) :
  cells w !! c = Some cl ->
  first_output_is_error cl ->
  posted (errorButton_onclick (length (buttons w)) user (checkForErrors c w))
  = posted w
    ++ [getErrorAnalysis_request
          (plus (PROMPT (Configuration
                           (credential_guard user (checkForErrors c w))))
                (diagnostic cl))
          (SECRET_KEY (Configuration
                         (credential_guard user (checkForErrors c w))))].
Proof.
  intros Hc Hf. unfold errorButton_onclick.
  rewrite (start_request_posted _ _ (new_errorButton (diagnostic cl) c)).
  - rewrite credential_guard_posted.
    rewrite (checkForErrors_flagged c w cl Hc Hf). by store_simpl.
  - rewrite credential_guard_buttons.
    rewrite (checkForErrors_flagged_buttons c w cl Hc Hf).
    rewrite lookup_app_r, Nat.sub_diag by lia. done.
Qed.

(** C8, as the code has it. An error output without diagnostic payload
    does not keep the scan from attaching the control; on activation the
    missing payload is converted to the text "undefined", and the prompt
    sent is the stored prompt template followed by that text. *)
Theorem missing_payload_is_sent_as_undefined
    (w : World) (c : nat) (cl : Cell) (o : IOutputModel)
    (rest : list IOutputModel) (user : User) :
  cells w !! c = Some cl ->
  outputs cl = o :: rest ->
  type o = "error" ->
  data o !! "application/vnd.jupyter.stderr" = None ->
  let b := length (buttons w) in
  let w1 := checkForErrors c w in
  let cfg := Configuration (credential_guard user w1) in
  node_of c w1 = node cl ++ [ButtonNode b]
  /\ posted (errorButton_onclick b user w1)
     = posted w ++ [getErrorAnalysis_request (PROMPT cfg +:+ "undefined")
                                             (SECRET_KEY cfg)].
Proof.
  intros Hc Ho Ht Hd b w1 cfg.
  assert (Hf : first_output_is_error cl) by (by exists o, rest).
  split.
  - by apply checkForErrors_flagged_node.
  - unfold b, w1, cfg. rewrite (fresh_control_request w c cl user Hc Hf).
    unfold diagnostic. rewrite Ho. simpl. by rewrite Hd.
Qed.

Lemma missing_payload_is_sent_as_undefined_witness :
  node_of 0 bare_notebook = [HostNode; ButtonNode 0]
  /\ posted (errorButton_onclick 0 cancels bare_notebook)
     = [getErrorAnalysis_request "Pundefined" "sk-test"].
Proof.
  apply (missing_payload_is_sent_as_undefined
           (notebook_of keyed_config [new_cell code [bare_error_output]]) 0
           (new_cell code [bare_error_output]) bare_error_output [] cancels);
    reflexivity.
Defined.

(** C8 as stated fails: the control attached to an error output without
    payload sends the template followed by "undefined", not the template
    followed by the empty text. *)
Lemma missing_payload_is_not_empty_text :
  controls (node_of 0 bare_notebook) = [0]
  /\ posted (handle (ErrorButtonClick 0 cancels) bare_notebook)
     <> [getErrorAnalysis_request (PROMPT keyed_config +:+ "")
                                  (SECRET_KEY keyed_config)].
Proof.
  split; [reflexivity|]. intros H. vm_compute in H. discriminate H.
Qed.

(** C9, as the code has it. The request an activation issues goes to the
    completion endpoint with body [{model, messages: [{role: "user",
    content}]}] where [content] is the stored prompt template followed by
    the diagnostic text the activated control captured when it was made
    (the text "undefined" if there was none), with the headers
    [Authorization: Bearer <credential>] and [Content-Type:
    application/json]; and a successful response yields
    [choices[0].message.content].  This holds for every control of the
    store, in every store. *)
Theorem request_carries_captured_text
    (w : World) (b : nat) (errorButton : HTMLButtonElement) (user : User) :
  buttons w !! b = Some errorButton ->
  let cfg := Configuration (credential_guard user w) in
  let errorText :=
    match errorMessage errorButton with
    | Some text => text
    | None => "undefined"
    end in
  posted (errorButton_onclick b user w)
  = posted w
    ++ [ {| ChatCompletion.url := "https://api.openai.com/v1/chat/completions";
            ChatCompletion.body :=
              {| ChatCompletion.model := "gpt-3.5-turbo";
                 ChatCompletion.messages :=
                   [ {| ChatCompletion.role := "user";
                        ChatCompletion.content := PROMPT cfg +:+ errorText |} ]
              |};
            ChatCompletion.headers :=
              {| ChatCompletion.Content_Type := "application/json";
                 ChatCompletion.Authorization := "Bearer " +:+ SECRET_KEY cfg |}
         |} ]
  /\ forall (choice : ChatCompletion.Choice) (others : list ChatCompletion.Choice)
            (v : World),
       getErrorAnalysis_settled
         (Fulfilled {| ChatCompletion.choices := choice :: others |}) v
       = (v, Fulfilled (ChatCompletion.content (ChatCompletion.message choice))).
Proof.
  intros Hb cfg errorText. split; [|done].
  unfold errorButton_onclick.
  rewrite (start_request_posted b _ errorButton)
    by (by rewrite credential_guard_buttons).
  rewrite credential_guard_posted. fold cfg.
  unfold errorText, plus. by destruct (errorMessage errorButton).
Qed.

Lemma request_carries_captured_text_witness :
  posted (errorButton_onclick 0 cancels stale_notebook)
  = [getErrorAnalysis_request ("P" +:+ zero_division) "sk-test"]
  /\ getErrorAnalysis_settled explained stale_notebook
     = (stale_notebook, Fulfilled "Error reason: division by zero").
Proof.
  destruct (request_carries_captured_text stale_notebook 0
              (new_errorButton (Some zero_division) 0) cancels eq_refl)
    as [H1 H2].
  split.
  - exact H1.
  - apply H2.
Defined.

(** C9 as stated fails: the cell failed, was scanned, and failed again
    with another error; its first output is tagged "error" and carries the
    new text, yet the request the control posts does not hold the template
    followed by that text.  It holds the text of the first failure. *)
Lemma stale_control_sends_old_text :
  (type <$> (cells stale_notebook !! 0 ≫= fun cl => outputs cl !! 0))
  = Some "error"
  /\ (diagnostic <$> cells stale_notebook !! 0) = Some (Some key_error)
  /\ posted (handle (ErrorButtonClick 0 cancels) stale_notebook)
     <> [getErrorAnalysis_request (PROMPT keyed_config +:+ key_error)
                                  (SECRET_KEY keyed_config)]
  /\ posted (handle (ErrorButtonClick 0 cancels) stale_notebook)
     = [getErrorAnalysis_request (PROMPT keyed_config +:+ zero_division)
                                 (SECRET_KEY keyed_config)].
Proof.
  split_and!; [reflexivity|reflexivity| |reflexivity].
  intros H. vm_compute in H. discriminate H.
Qed.





(** The two runs on the sample notebook, in Korean and in English. *)
Example request_same_in_KR_and_EN :
  posted (errorButton_onclick 0 cancels
            (set_Configuration
               {| SECRET_KEY := "sk-test"; LANGUAGE := "KR"; PROMPT := "P" |}
               watched_notebook))
  = posted (errorButton_onclick 0 cancels
              (set_Configuration
                 {| SECRET_KEY := "sk-test"; LANGUAGE := "EN"; PROMPT := "P" |}
                 watched_notebook)).
Proof. reflexivity. Qed.

(** * Further properties of the handlers *)

(** ** What the scans leave alone *)

Lemma checkForErrors_frame (c : nat) (w : World) :
  Configuration (checkForErrors c w) = Configuration w
  /\ models (checkForErrors c w) = models w
  /\ posted (checkForErrors c w) = posted w
  /\ chains (checkForErrors c w) = chains w
  /\ console (checkForErrors c w) = console w
  /\ widgets (checkForErrors c w) = widgets w
  /\ has_model (checkForErrors c w) = has_model w
  /\ watching (checkForErrors c w) = watching w.
Proof.
  unfold checkForErrors, appendChild.
  destruct (cells w !! c) as [cl|] eqn:Hc; [|done].
  destruct (outputs cl !! 0) as [o|]; [|done].
  destruct (_ && _); [|done]. simpl. rewrite Hc. done.
Qed.

Lemma connect_changed_frame (c : nat) (w : World) :
  Configuration (connect_changed c w) = Configuration w
  /\ models (connect_changed c w) = models w
  /\ posted (connect_changed c w) = posted w
  /\ chains (connect_changed c w) = chains w
  /\ console (connect_changed c w) = console w
  /\ widgets (connect_changed c w) = widgets w
  /\ buttons (connect_changed c w) = buttons w
  /\ has_model (connect_changed c w) = has_model w
  /\ watching (connect_changed c w) = watching w.
Proof. unfold connect_changed. by destruct (cells w !! c). Qed.

Lemma forEach_widget_invariant (P : World -> Prop)
    (f : nat -> World -> World) (w : World) :
  (forall c v, P v -> P (f c v)) -> P w -> P (forEach_widget f w).
Proof.
  intros Hf Hw. unfold forEach_widget. apply foldl_invariant; [|done].
  intros c v. apply Hf.
Qed.

Lemma checkForErrors_request_state (c : nat) (w : World) :
  request_state (checkForErrors c w) = request_state w.
Proof.
  unfold request_state.
  destruct (checkForErrors_frame c w) as (-> & -> & -> & -> & -> & _). done.
Qed.

Lemma connect_changed_request_state (c : nat) (w : World) :
  request_state (connect_changed c w) = request_state w.
Proof.
  unfold request_state.
  destruct (connect_changed_frame c w) as (-> & -> & -> & -> & -> & _). done.
Qed.

Lemma notification_request_state (e : Event) (w : World) :
  is_notification e = true -> request_state (handle e w) = request_state w.
Proof.
  intros He. destruct e as [| |c|user|b user|i r]; try discriminate He; simpl.
  - unfold widgetAdded. destruct (has_model w); [|done].
    change (request_state (set_watching true (forEach_widget scan_existing w)))
      with (request_state (forEach_widget scan_existing w)).
    apply (forEach_widget_invariant (fun v => request_state v = request_state w));
      [|done].
    intros c v Hv. unfold scan_existing. destruct (is_code c v); [|done].
    by rewrite checkForErrors_request_state.
  - destruct (watching w); [|done]. unfold cells_changed.
    apply (forEach_widget_invariant (fun v => request_state v = request_state w));
      [|done].
    intros c v Hv. unfold scan_and_connect. destruct (is_code c v); [|done].
    by rewrite connect_changed_request_state, checkForErrors_request_state.
  - unfold outputs_changed. destruct (cells w !! c); [|done].
    apply (iter_invariant (fun v => request_state v = request_state w));
      [|done].
    intros v Hv. by rewrite checkForErrors_request_state.
Qed.

Lemma notifications_request_state (es : list Event) (w : World) :
  forallb is_notification es = true ->
  request_state (run es w) = request_state w.
Proof.
  revert w. induction es as [|e es IH]; intros w Hes; [done|].
  simpl in Hes. apply andb_prop in Hes as [He Hes].
  change (run (e :: es) w) with (run es (handle e w)).
  rewrite (IH _ Hes). by apply notification_request_state.
Qed.

(** X1. The watcher's handlers (the scan on opening a notebook and the
    re-scans on structural and output notifications) write only cells and
    buttons: however many of them run, the stored configuration, the result
    models, the posted requests, the pending promise chains and the console
    are what they were.  In particular no scan ever issues a request. *)
Theorem notifications_leave_requests_alone (es : list Event) (w : World) :
  forallb is_notification es = true ->
  Configuration (run es w) = Configuration w
  /\ models (run es w) = models w
  /\ posted (run es w) = posted w
  /\ chains (run es w) = chains w
  /\ console (run es w) = console w.
Proof.
  intros Hes. pose proof (notifications_request_state es w Hes) as H.
  unfold request_state in H. by simplify_eq.
Qed.
Lemma notifications_leave_requests_alone_witness :
  Configuration (run [WidgetAdded; CellsChanged; OutputsChanged 0]
                     loading_notebook) = Configuration loading_notebook
  /\ models (run [WidgetAdded; CellsChanged; OutputsChanged 0]
                 loading_notebook) = models loading_notebook
  /\ posted (run [WidgetAdded; CellsChanged; OutputsChanged 0]
                 loading_notebook) = posted loading_notebook
  /\ chains (run [WidgetAdded; CellsChanged; OutputsChanged 0]
                 loading_notebook) = chains loading_notebook
  /\ console (run [WidgetAdded; CellsChanged; OutputsChanged 0]
                  loading_notebook) = console loading_notebook.
Proof.
  apply (notifications_leave_requests_alone
           [WidgetAdded; CellsChanged; OutputsChanged 0] loading_notebook).
  reflexivity.
Defined.

(** ** Who writes the configuration and who posts *)

Lemma chain_settled_frame (b model : nat) (r : Settled string) (w : World) :
  Configuration (chain_settled b model r w) = Configuration w
  /\ posted (chain_settled b model r w) = posted w
  /\ cells (chain_settled b model r w) = cells w
  /\ chains (chain_settled b model r w) = chains w.
Proof.
  unfold chain_settled, set_disabled, model_add, model_clear, console_error.
  destruct r; simpl; repeat case_match; done.
Qed.

Lemma getErrorAnalysis_settled_frame
    (r : Settled ChatCompletion.Response) (w : World) :
  Configuration (getErrorAnalysis_settled r w).1 = Configuration w
  /\ posted (getErrorAnalysis_settled r w).1 = posted w
  /\ chains (getErrorAnalysis_settled r w).1 = chains w.
Proof.
  destruct r as [d|e]; simpl; [|done].
  by destruct (ChatCompletion.choices d !! 0).
Qed.

Lemma settled_frame (i : nat) (r : Settled ChatCompletion.Response)
    (w : World) :
  Configuration (handle (PostSettled i r) w) = Configuration w
  /\ posted (handle (PostSettled i r) w) = posted w
  /\ cells (handle (PostSettled i r) w) = cells w.
Proof.
  simpl. destruct (chains w !! i) as [[[b model]|]|]; try done.
  destruct (getErrorAnalysis_settled r _) as [w2 s] eqn:Hg.
  destruct (chain_settled_frame b model s w2) as (-> & -> & -> & _).
  change w2 with (w2, s).1. rewrite <- Hg.
  destruct (getErrorAnalysis_settled_frame r
              (set_chains (<[i:=None]> (chains w)) w)) as (-> & -> & _).
  by rewrite getErrorAnalysis_settled_cells.
Qed.

Lemma truthy_false (s : string) : truthy s = false <-> s = "".
Proof. destruct s; simpl; split; congruence. Qed.

(** X2. The stored configuration changes only when a configuration dialog
    is accepted: if a handler leaves it different, the handler was a click
    (on the toolbar button, or on an action control while the stored
    credential was empty) and the user accepted the dialog it opened.
    Scans, settlements, cancelled dialogs and activations with a credential
    never write it. *)
Theorem configuration_changes_only_on_accept (e : Event) (w : World) :
  Configuration (handle e w) <> Configuration w ->
  exists user,
    (e = MyButtonClick user
     \/ exists b, e = ErrorButtonClick b user
                  /\ SECRET_KEY (Configuration w) = "")
    /\ accept (user (opened_dialog w)) = true.
Proof.
  intros Hne. destruct e as [| |c|user|b user|i r].
  - exfalso. apply Hne.
    pose proof (notification_request_state WidgetAdded w eq_refl) as H.
    unfold request_state in H. by simplify_eq.
  - exfalso. apply Hne.
    pose proof (notification_request_state CellsChanged w eq_refl) as H.
    unfold request_state in H. by simplify_eq.
  - exfalso. apply Hne.
    pose proof (notification_request_state (OutputsChanged c) w eq_refl) as H.
    unfold request_state in H. by simplify_eq.
  - exists user. split; [by left|].
    simpl in Hne. unfold myButton_onClick, configure, showDialog in Hne.
    fold (opened_dialog w) in Hne.
    by destruct (accept (user (opened_dialog w))).
  - exists user. simpl in Hne.
    destruct (buttons w !! b) as [eb|]; [|done].
    destruct (disabled eb); [done|].
    unfold errorButton_onclick in Hne.
    rewrite start_request_Configuration in Hne.
    unfold credential_guard, configure, showDialog in Hne.
    fold (opened_dialog w) in Hne.
    destruct (truthy (SECRET_KEY (Configuration w))) eqn:Hk; [done|].
    simpl in Hne. apply truthy_false in Hk.
    split; [right; by exists b|].
    by destruct (accept (user (opened_dialog w))).
  - exfalso. apply Hne. by destruct (settled_frame i r w).
Qed.

Lemma configuration_changes_only_on_accept_witness :
  exists user,
    (MyButtonClick (submits "k1" "EN" "P") = MyButtonClick user
     \/ exists b, MyButtonClick (submits "k1" "EN" "P") = ErrorButtonClick b user
                  /\ SECRET_KEY (Configuration watched_notebook) = "")
    /\ accept (user (opened_dialog watched_notebook)) = true.
Proof.
  apply (configuration_changes_only_on_accept
           (MyButtonClick (submits "k1" "EN" "P")) watched_notebook).
  vm_compute. discriminate.
Defined.

Lemma not_activation_posted (e : Event) (w : World) :
  is_activation e = false -> posted (handle e w) = posted w.
Proof.
  intros He. destruct e as [| |c|user|b user|i r]; try discriminate He.
  - pose proof (notification_request_state WidgetAdded w eq_refl) as H.
    unfold request_state in H. by simplify_eq.
  - pose proof (notification_request_state CellsChanged w eq_refl) as H.
    unfold request_state in H. by simplify_eq.
  - pose proof (notification_request_state (OutputsChanged c) w eq_refl) as H.
    unfold request_state in H. by simplify_eq.
  - simpl. apply configure_posted.
  - by destruct (settled_frame i r w) as (_ & ? & _).
Qed.

(** X3. Requests are posted by activations of an action control and by
    nothing else: whatever other handlers run (scans, the toolbar dialog,
    settlements of earlier requests, fulfilled or rejected), the list of
    posted requests stays as it was; a failed request is never posted
    again. *)
Theorem only_activations_post (es : list Event) (w : World) :
  forallb (fun e => negb (is_activation e)) es = true ->
  posted (run es w) = posted w.
Proof.
  revert w. induction es as [|e es IH]; intros w Hes; [done|].
  simpl in Hes. apply andb_prop in Hes as [He Hes].
  change (run (e :: es) w) with (run es (handle e w)).
  rewrite (IH _ Hes). apply not_activation_posted.
  by destruct (is_activation e).
Qed.

Lemma only_activations_post_witness :
  posted (run [PostSettled 0 (Rejected status_401); CellsChanged;
               MyButtonClick (submits "k1" "EN" "P"); OutputsChanged 0]
              loading_notebook)
  = posted loading_notebook.
Proof.
  apply (only_activations_post
           [PostSettled 0 (Rejected status_401); CellsChanged;
            MyButtonClick (submits "k1" "EN" "P"); OutputsChanged 0]
           loading_notebook).
  reflexivity.
Defined.

(** ** Activations *)

Lemma credential_guard_with_key (user : User) (w : World) :
  SECRET_KEY (Configuration w) <> "" -> credential_guard user w = w.
Proof.
  intros Hk. unfold credential_guard.
  destruct (truthy (SECRET_KEY (Configuration w))) eqn:Ht; [done|].
  by apply truthy_false in Ht.
Qed.

(** X4. The credential guard opens the dialog for the empty credential
    only: with any other stored credential (a blank one included) the
    activation does not consult the user, leaves the configuration alone
    and goes straight to the request. *)
Theorem stored_credential_skips_dialog
    (w : World) (b : nat) (user1 user2 : User) :
  SECRET_KEY (Configuration w) <> "" ->
  errorButton_onclick b user1 w = errorButton_onclick b user2 w
  /\ errorButton_onclick b user1 w = start_request b w
  /\ Configuration (errorButton_onclick b user1 w) = Configuration w.
Proof.
  intros Hk. unfold errorButton_onclick.
  rewrite !(credential_guard_with_key _ w Hk).
  split_and!; [done|done|apply start_request_Configuration].
Qed.

Lemma stored_credential_skips_dialog_witness :
  errorButton_onclick 0 cancels
    (set_Configuration {| SECRET_KEY := " "; LANGUAGE := "KR"; PROMPT := "P" |}
                       watched_notebook)
  = errorButton_onclick 0 (submits "k1" "EN" "Q")
      (set_Configuration {| SECRET_KEY := " "; LANGUAGE := "KR"; PROMPT := "P" |}
                         watched_notebook)
  /\ errorButton_onclick 0 cancels
       (set_Configuration {| SECRET_KEY := " "; LANGUAGE := "KR"; PROMPT := "P" |}
                          watched_notebook)
     = start_request 0
         (set_Configuration
            {| SECRET_KEY := " "; LANGUAGE := "KR"; PROMPT := "P" |}
            watched_notebook)
  /\ Configuration
       (errorButton_onclick 0 cancels
          (set_Configuration
             {| SECRET_KEY := " "; LANGUAGE := "KR"; PROMPT := "P" |}
             watched_notebook))
     = {| SECRET_KEY := " "; LANGUAGE := "KR"; PROMPT := "P" |}.
Proof.
  apply (stored_credential_skips_dialog
           (set_Configuration
              {| SECRET_KEY := " "; LANGUAGE := "KR"; PROMPT := "P" |}
              watched_notebook) 0 cancels (submits "k1" "EN" "Q")).
  simpl. discriminate.
Defined.

Lemma start_request_chains (b : nat) (w : World) (e : HTMLButtonElement) :
  buttons w !! b = Some e ->
  chains (start_request b w) = chains w ++ [Some (b, length (models w))].
Proof.
  intros He. unfold start_request. rewrite He.
  unfold appendChild. simpl.
  destruct (cells _ !! cell e); simpl; unfold model_add; simpl;
    rewrite set_disabled_models;
    by destruct (_ !! length (models w)); simpl;
      unfold set_disabled; rewrite He.
Qed.

Lemma start_request_buttons_other (b b' : nat) (w : World) :
  b <> b' -> buttons (start_request b w) !! b' = buttons w !! b'.
Proof.
  intros Hne. unfold start_request.
  destruct (buttons w !! b) as [e|] eqn:He; [|done].
  store_simpl. unfold set_disabled. rewrite He. simpl.
  by rewrite list_lookup_insert_ne.
Qed.

Lemma start_request_console (b : nat) (w : World) :
  console (start_request b w) = console w.
Proof.
  unfold start_request.
  destruct (buttons w !! b) as [e|] eqn:He; [|done].
  unfold appendChild, model_add, set_disabled. simpl. rewrite He. simpl.
  repeat case_match; done.
Qed.

(** X5. Every activation of a control, whatever the stored credential and
    whatever the user does with the dialog, disables the control, creates
    one new result model holding the "Loading..." placeholder, appends its
    area as the last child of the cell the control was made for, posts one
    request and leaves one promise chain pending for that control and that
    model.  Earlier result areas of the cell stay in place. *)
Theorem activation_starts_loading
    (w : World) (b : nat) (errorButton : HTMLButtonElement) (cl : Cell)
    (user : User) :
  buttons w !! b = Some errorButton ->
  cells w !! cell errorButton = Some cl ->
  is_disabled b (errorButton_onclick b user w) = Some true
  /\ models (errorButton_onclick b user w)
     = models w ++ [[stream_stdout "Loading..."]]
  /\ node_of (cell errorButton) (errorButton_onclick b user w)
     = node cl ++ [OutputAreaNode (length (models w))]
  /\ length (posted (errorButton_onclick b user w)) = S (length (posted w))
  /\ chains (errorButton_onclick b user w)
     = chains w ++ [Some (b, length (models w))]
  /\ console (errorButton_onclick b user w) = console w.
Proof.
  intros Hb Hc. unfold errorButton_onclick.
  set (v := credential_guard user w).
  assert (Hvb : buttons v = buttons w) by apply credential_guard_buttons.
  assert (Hvc : cells v = cells w) by apply credential_guard_cells.
  assert (Hvm : models v = models w) by apply credential_guard_models.
  assert (Hb' : buttons v !! b = Some errorButton) by (by rewrite Hvb).
  split_and!.
  - apply start_request_is_disabled. by exists errorButton.
  - by rewrite (start_request_models b v errorButton Hb'), Hvm.
  - rewrite (start_request_node b v errorButton Hb').
    + unfold node_of. by rewrite Hvc, Hc, Hvm.
    + rewrite Hvc. by exists cl.
  - rewrite (start_request_posted b v errorButton Hb'), length_app.
    unfold v. rewrite credential_guard_posted. simpl. lia.
  - rewrite (start_request_chains b v errorButton Hb'), Hvm. f_equal.
    unfold v, credential_guard, configure.
    destruct (negb _); [|done]. by destruct (accept _).
  - rewrite start_request_console.
    unfold v, credential_guard, configure.
    destruct (negb _); [|done]. by destruct (accept _).
Qed.

Lemma activation_starts_loading_witness :
  is_disabled 1 (errorButton_onclick 1 cancels analysed_notebook) = Some true
  /\ models (errorButton_onclick 1 cancels analysed_notebook)
     = [[stream_stdout "Error reason: division by zero"];
        [stream_stdout "Loading..."]]
  /\ node_of 0 (errorButton_onclick 1 cancels analysed_notebook)
     = [HostNode; ButtonNode 0; ButtonNode 1; OutputAreaNode 0;
        OutputAreaNode 1]
  /\ length (posted (errorButton_onclick 1 cancels analysed_notebook)) = 2
  /\ chains (errorButton_onclick 1 cancels analysed_notebook)
     = [None; Some (1, 1)]
  /\ console (errorButton_onclick 1 cancels analysed_notebook) = [].
Proof.
  apply (activation_starts_loading analysed_notebook 1
           (new_errorButton (Some zero_division) 0)
           {| cell_type := code; outputs := [error_output zero_division];
              node := [HostNode; ButtonNode 0; ButtonNode 1; OutputAreaNode 0];
              changed_slots := 1 |} cancels); reflexivity.
Defined.

(** ** Settlements *)

Lemma handle_settled_pending (i b model : nat)
    (r : Settled ChatCompletion.Response) (w : World) :
  chains w !! i = Some (Some (b, model)) ->
  handle (PostSettled i r) w
  = chain_settled b model
      (getErrorAnalysis_settled r (set_chains (<[i:=None]> (chains w)) w)).2
      (getErrorAnalysis_settled r (set_chains (<[i:=None]> (chains w)) w)).1.
Proof.
  intros Hi. simpl. rewrite Hi. by destruct (getErrorAnalysis_settled r _).
Qed.

Lemma chain_settled_console_fulfilled (b model : nat) (s : string) (w : World) :
  console (chain_settled b model (Fulfilled s) w) = console w.
Proof.
  unfold chain_settled, set_disabled, model_add, model_clear. simpl.
  repeat case_match; done.
Qed.

Lemma chain_settled_console_rejected (b model : nat) (e : Error) (w : World) :
  console (chain_settled b model (Rejected e) w) = console w ++ [e].
Proof.
  unfold chain_settled, set_disabled, model_add, console_error. simpl.
  repeat case_match; done.
Qed.

Lemma overwrites_app (s1 s2 : string) :
  overwrites (s1 +:+ s2) = overwrites s1 || overwrites s2.
Proof.
  induction s1 as [|a s1 IH]; simpl; [done|].
  rewrite IH. by destruct (Ascii.eqb a CR || Ascii.eqb a BS).
Qed.

Lemma removeOverwrittenChars_plain (f : string -> string) (text : string) :
  overwrites text = false -> removeOverwrittenChars f text = text.
Proof. intros H. unfold removeOverwrittenChars. by rewrite H. Qed.

(** X6. When the request of a pending activation is answered with at
    least one choice, its result model is cleared and holds exactly one
    entry, the first choice's message content as the output model stores
    it: word for word when it holds no carriage return and no backspace,
    with the library's overwriting applied otherwise.  Nothing is logged,
    the control is enabled and the chain is no longer pending. *)
Theorem fulfilled_request_shows_explanation
    (w : World) (i b model : nat) (l : list IOutput)
    (choice : ChatCompletion.Choice) (others : list ChatCompletion.Choice) :
  chains w !! i = Some (Some (b, model)) ->
  models w !! model = Some l ->
  is_Some (buttons w !! b) ->
  let r := Fulfilled {| ChatCompletion.choices := choice :: others |} in
  let explanation := ChatCompletion.content (ChatCompletion.message choice) in
  models (handle (PostSettled i r) w) !! model
  = Some [stream_stdout
            (removeOverwrittenChars (overwritten w) explanation)]
  /\ (overwrites explanation = true
      \/ models (handle (PostSettled i r) w) !! model
         = Some [stream_stdout explanation])
  /\ console (handle (PostSettled i r) w) = console w
  /\ is_disabled b (handle (PostSettled i r) w) = Some false
  /\ chains (handle (PostSettled i r) w) !! i = Some None.
Proof.
  intros Hi Hm Hb r explanation.
  rewrite (handle_settled_pending i b model r w Hi).
  unfold r. simpl. fold explanation.
  assert (Hmodel :
    models (chain_settled b model (Fulfilled explanation)
              (set_chains (<[i:=None]> (chains w)) w)) !! model
    = Some [stream_stdout
              (removeOverwrittenChars (overwritten w) explanation)]).
  { by rewrite (chain_fulfilled_model b model _ _ l). }
  split_and!.
  - exact Hmodel.
  - destruct (overwrites explanation) eqn:Ho; [by left|right].
    rewrite Hmodel. by rewrite removeOverwrittenChars_plain.
  - by rewrite chain_settled_console_fulfilled.
  - by apply chain_settled_is_disabled.
  - destruct (chain_settled_frame b model (Fulfilled explanation)
               (set_chains (<[i:=None]> (chains w)) w)) as (_ & _ & _ & ->).
    simpl. apply list_lookup_insert_eq. by eapply lookup_lt_Some.
Qed.

Lemma fulfilled_request_shows_explanation_witness :
  models (handle (PostSettled 0 explained) loading_notebook) !! 0
  = Some [stream_stdout
            (removeOverwrittenChars (overwritten loading_notebook)
               "Error reason: division by zero")]
  /\ (overwrites "Error reason: division by zero" = true
      \/ models (handle (PostSettled 0 explained) loading_notebook) !! 0
         = Some [stream_stdout "Error reason: division by zero"])
  /\ console (handle (PostSettled 0 explained) loading_notebook) = []
  /\ is_disabled 0 (handle (PostSettled 0 explained) loading_notebook)
     = Some false
  /\ chains (handle (PostSettled 0 explained) loading_notebook) !! 0
     = Some None.
Proof.
  apply (fulfilled_request_shows_explanation loading_notebook 0 0 0
           [stream_stdout "Loading..."]).
  - reflexivity.
  - reflexivity.
  - eexists. reflexivity.
Defined.

(** X7. When the request of a pending activation is rejected while its
    result model still holds the placeholder, the message does not replace
    the placeholder and does not become an entry of its own: the model
    holds one stream entry whose text is "Loading..." followed by the
    error's message (word for word when the message holds no carriage
    return and no backspace).  The error is logged twice (once by
    [getErrorAnalysis], once by the activation's own handler), and the
    control is enabled.  An answer without any choice is handled exactly as
    a rejection with the [TypeError] that reading its first choice
    raises. *)
Theorem rejected_request_extends_placeholder
    (w : World) (i b model : nat) (error : Error) :
  chains w !! i = Some (Some (b, model)) ->
  models w !! model = Some [stream_stdout "Loading..."] ->
  is_Some (buttons w !! b) ->
  models (handle (PostSettled i (Rejected error)) w) !! model
  = Some [stream_stdout
            (removeOverwrittenChars (overwritten w)
               ("Loading..." +:+ message error))]
  /\ (overwrites (message error) = true
      \/ models (handle (PostSettled i (Rejected error)) w) !! model
         = Some [stream_stdout ("Loading..." +:+ message error)])
  /\ console (handle (PostSettled i (Rejected error)) w)
     = console w ++ [error; error]
  /\ is_disabled b (handle (PostSettled i (Rejected error)) w) = Some false
  /\ handle (PostSettled i (Fulfilled {| ChatCompletion.choices := [] |})) w
     = handle (PostSettled i (Rejected TypeError_undefined)) w.
Proof.
  intros Hi Hm Hb.
  assert (Hmodel :
    models (handle (PostSettled i (Rejected error)) w) !! model
    = Some [stream_stdout
              (removeOverwrittenChars (overwritten w)
                 ("Loading..." +:+ message error))]).
  { rewrite (handle_settled_pending i b model _ w Hi). simpl.
    by rewrite (chain_rejected_model b model _ _
                  [stream_stdout "Loading..."]). }
  split_and!.
  - exact Hmodel.
  - destruct (overwrites (message error)) eqn:Ho; [by left|right].
    rewrite Hmodel. rewrite removeOverwrittenChars_plain; [done|].
    by rewrite overwrites_app, Ho.
  - rewrite (handle_settled_pending i b model _ w Hi). simpl.
    rewrite chain_settled_console_rejected. simpl. by rewrite <- app_assoc.
  - rewrite (handle_settled_pending i b model _ w Hi). simpl.
    by apply chain_settled_is_disabled.
  - by rewrite !(handle_settled_pending i b model _ w Hi).
Qed.

Lemma rejected_request_extends_placeholder_witness :
  models (handle (PostSettled 0 (Rejected status_401)) loading_notebook) !! 0
  = Some [stream_stdout
            (removeOverwrittenChars (overwritten loading_notebook)
               ("Loading..." +:+ message status_401))]
  /\ (overwrites (message status_401) = true
      \/ models (handle (PostSettled 0 (Rejected status_401))
                        loading_notebook) !! 0
         = Some [stream_stdout ("Loading..." +:+ message status_401)])
  /\ console (handle (PostSettled 0 (Rejected status_401)) loading_notebook)
     = [] ++ [status_401; status_401]
  /\ is_disabled 0 (handle (PostSettled 0 (Rejected status_401))
                           loading_notebook) = Some false
  /\ handle (PostSettled 0 (Fulfilled {| ChatCompletion.choices := [] |}))
            loading_notebook
     = handle (PostSettled 0 (Rejected TypeError_undefined)) loading_notebook.
Proof.
  apply (rejected_request_extends_placeholder loading_notebook 0 0 0
           status_401).
  - reflexivity.
  - reflexivity.
  - eexists. reflexivity.
Defined.

Lemma settled_elsewhere
    (w : World) (i b model : nat) (r : Settled ChatCompletion.Response)
    (model' b' j : nat) :
  chains w !! i = Some (Some (b, model)) ->
  model' <> model ->
  b' <> b ->
  j <> i ->
  models (handle (PostSettled i r) w) !! model' = models w !! model'
  /\ buttons (handle (PostSettled i r) w) !! b' = buttons w !! b'
  /\ chains (handle (PostSettled i r) w) !! j = chains w !! j
  /\ cells (handle (PostSettled i r) w) = cells w
  /\ Configuration (handle (PostSettled i r) w) = Configuration w
  /\ posted (handle (PostSettled i r) w) = posted w.
Proof.
  intros Hi Hm Hb Hj.
  destruct (settled_frame i r w) as (HC & HP & Hcells).
  split_and!; [| | |done..].
  - rewrite (handle_settled_pending i b model r w Hi).
    set (g := getErrorAnalysis_settled r _).
    assert (Hg : models g.1 = models w)
      by (unfold g; by rewrite getErrorAnalysis_settled_models).
    unfold chain_settled. rewrite set_disabled_models.
    destruct g.2; unfold model_add, model_clear, console_error; simpl;
      repeat case_match; simpl; rewrite ?list_lookup_insert_ne by done;
      by rewrite ?Hg.
  - rewrite (handle_settled_pending i b model r w Hi).
    set (g := getErrorAnalysis_settled r _).
    assert (Hg : buttons g.1 = buttons w)
      by (unfold g; by rewrite getErrorAnalysis_settled_buttons).
    unfold chain_settled, set_disabled.
    destruct g.2; store_simpl; repeat case_match; simpl;
      rewrite ?list_lookup_insert_ne by done; store_simpl; by rewrite ?Hg.
  - rewrite (handle_settled_pending i b model r w Hi).
    set (g := getErrorAnalysis_settled r _).
    destruct (chain_settled_frame b model g.2 g.1) as (_ & _ & _ & ->).
    unfold g.
    destruct (getErrorAnalysis_settled_frame r
                (set_chains (<[i:=None]> (chains w)) w)) as (_ & _ & ->).
    simpl. by rewrite list_lookup_insert_ne.
Qed.

(** X8. A settlement touches only its own activation: every other result
    model, every other button, every other pending chain, the cells, the
    stored configuration and the posted requests are left as they were,
    whether the request was fulfilled or rejected. *)
Theorem settlement_is_local
    (w : World) (i b model : nat) (r : Settled ChatCompletion.Response)
    (model' b' j : nat) :
  chains w !! i = Some (Some (b, model)) ->
  model' <> model ->
  b' <> b ->
  j <> i ->
  models (handle (PostSettled i r) w) !! model' = models w !! model'
  /\ buttons (handle (PostSettled i r) w) !! b' = buttons w !! b'
  /\ chains (handle (PostSettled i r) w) !! j = chains w !! j
  /\ cells (handle (PostSettled i r) w) = cells w
  /\ Configuration (handle (PostSettled i r) w) = Configuration w
  /\ posted (handle (PostSettled i r) w) = posted w.
Proof. apply settled_elsewhere. Qed.

Lemma settlement_is_local_witness :
  models (handle (PostSettled 0 (Rejected status_401)) both_loading) !! 1
  = models both_loading !! 1
  /\ buttons (handle (PostSettled 0 (Rejected status_401)) both_loading) !! 1
     = buttons both_loading !! 1
  /\ chains (handle (PostSettled 0 (Rejected status_401)) both_loading) !! 1
     = chains both_loading !! 1
  /\ cells (handle (PostSettled 0 (Rejected status_401)) both_loading)
     = cells both_loading
  /\ Configuration (handle (PostSettled 0 (Rejected status_401)) both_loading)
     = Configuration both_loading
  /\ posted (handle (PostSettled 0 (Rejected status_401)) both_loading)
     = posted both_loading.
Proof.
  apply (settlement_is_local both_loading 0 0 0 (Rejected status_401) 1 1 1).
  - reflexivity.
  - lia.
  - lia.
  - lia.
Defined.

Lemma settled_own_chain (w : World) (i b model : nat)
    (r : Settled ChatCompletion.Response) :
  chains w !! i = Some (Some (b, model)) ->
  chains (handle (PostSettled i r) w) !! i = Some None.
Proof.
  intros Hi. rewrite (handle_settled_pending i b model r w Hi).
  set (g := getErrorAnalysis_settled r _).
  destruct (chain_settled_frame b model g.2 g.1) as (_ & _ & _ & ->).
  unfold g.
  destruct (getErrorAnalysis_settled_frame r
              (set_chains (<[i:=None]> (chains w)) w)) as (_ & _ & ->).
  simpl. apply list_lookup_insert_eq. by eapply lookup_lt_Some.
Qed.

Lemma model_add_own (m : nat) (o : IOutput) (w : World) :
  models (model_add m o w) !! m
  = (fun l => OutputAreaModel_add (overwritten w) l o) <$> models w !! m.
Proof.
  unfold model_add. destruct (models w !! m) as [l|] eqn:Hl; simpl.
  - apply list_lookup_insert_eq. by eapply lookup_lt_Some.
  - by rewrite Hl.
Qed.

Lemma model_clear_own (m : nat) (w : World) :
  models (model_clear m w) !! m = (fun _ => []) <$> models w !! m.
Proof.
  unfold model_clear. destruct (models w !! m) as [l|] eqn:Hl; simpl.
  - apply list_lookup_insert_eq. by eapply lookup_lt_Some.
  - by rewrite Hl.
Qed.

Lemma chain_settled_own_model (b m : nat) (s : Settled string) (w : World) :
  models (chain_settled b m s w) !! m
  = match s with
    | Fulfilled result =>
        (fun _ => OutputAreaModel_add (overwritten w) []
                    (stream_stdout result)) <$> models w !! m
    | Rejected e =>
        (fun l => OutputAreaModel_add (overwritten w) l
                    (stream_stdout (message e))) <$> models w !! m
    end.
Proof.
  unfold chain_settled. rewrite set_disabled_models. destruct s.
  - rewrite model_add_own, model_clear_own, model_clear_overwritten.
    by destruct (models w !! m).
  - by rewrite model_add_own.
Qed.

Lemma getErrorAnalysis_settled_outcome
    (r : Settled ChatCompletion.Response) (w w' : World) :
  (getErrorAnalysis_settled r w).2 = (getErrorAnalysis_settled r w').2.
Proof.
  destruct r as [d|e]; simpl; [|done].
  by destruct (ChatCompletion.choices d !! 0).
Qed.

Lemma getErrorAnalysis_settled_overwritten
    (r : Settled ChatCompletion.Response) (w : World) :
  overwritten (getErrorAnalysis_settled r w).1 = overwritten w.
Proof.
  destruct r as [d|e]; simpl; [|done].
  by destruct (ChatCompletion.choices d !! 0).
Qed.

Lemma chain_settled_overwritten (b m : nat) (s : Settled string) (w : World) :
  overwritten (chain_settled b m s w) = overwritten w.
Proof. unfold chain_settled. destruct s; by store_simpl. Qed.

Lemma settled_overwritten (i : nat) (r : Settled ChatCompletion.Response)
    (w : World) :
  overwritten (handle (PostSettled i r) w) = overwritten w.
Proof.
  destruct (chains w !! i) as [[[b model]|]|] eqn:Hi;
    [|simpl; by rewrite Hi..].
  rewrite (handle_settled_pending i b model r w Hi).
  by rewrite chain_settled_overwritten, getErrorAnalysis_settled_overwritten.
Qed.

(** What a settlement writes into its own model and button depends on the
    store only through that model and that button. *)
Lemma settled_own_model (w w' : World) (i b model : nat)
    (r : Settled ChatCompletion.Response) :
  chains w !! i = Some (Some (b, model)) ->
  chains w' !! i = Some (Some (b, model)) ->
  overwritten w = overwritten w' ->
  models w !! model = models w' !! model ->
  models (handle (PostSettled i r) w) !! model
  = models (handle (PostSettled i r) w') !! model.
Proof.
  intros Hi Hi' Ho Hm.
  rewrite (handle_settled_pending i b model r w Hi),
          (handle_settled_pending i b model r w' Hi').
  rewrite !chain_settled_own_model, !getErrorAnalysis_settled_models.
  rewrite !getErrorAnalysis_settled_overwritten.
  rewrite (getErrorAnalysis_settled_outcome r _
             (set_chains (<[i:=None]> (chains w')) w')).
  simpl. by rewrite Hm, Ho.
Qed.

Lemma set_disabled_own (b : nat) (x : bool) (w : World) :
  buttons (set_disabled b x w) !! b
  = (fun e => {| innerText := innerText e; className := className e;
                 disabled := x; errorMessage := errorMessage e;
                 cell := cell e |}) <$> buttons w !! b.
Proof.
  unfold set_disabled. destruct (buttons w !! b) as [e|] eqn:He; simpl.
  - apply list_lookup_insert_eq. by eapply lookup_lt_Some.
  - by rewrite He.
Qed.

Lemma chain_settled_buttons_inner (b m : nat) (s : Settled string) (w : World) :
  buttons (chain_settled b m s w) = buttons (set_disabled b false w).
Proof.
  unfold chain_settled, set_disabled.
  destruct s; store_simpl; destruct (buttons w !! b); by store_simpl.
Qed.

Lemma settled_own_button (w w' : World) (i b model : nat)
    (r : Settled ChatCompletion.Response) :
  chains w !! i = Some (Some (b, model)) ->
  chains w' !! i = Some (Some (b, model)) ->
  buttons w !! b = buttons w' !! b ->
  buttons (handle (PostSettled i r) w) !! b
  = buttons (handle (PostSettled i r) w') !! b.
Proof.
  intros Hi Hi' Hb.
  rewrite (handle_settled_pending i b model r w Hi),
          (handle_settled_pending i b model r w' Hi').
  rewrite !chain_settled_buttons_inner, !set_disabled_own.
  rewrite !getErrorAnalysis_settled_buttons. simpl. by rewrite Hb.
Qed.

(** The store as two settlements leave it, but for the console. *)
Lemma settled_twice_lookup (w : World) (i j bi bj mi mj : nat)
    (ri rj : Settled ChatCompletion.Response) :
  chains w !! i = Some (Some (bi, mi)) ->
  chains w !! j = Some (Some (bj, mj)) ->
  i <> j -> bi <> bj -> mi <> mj ->
  forall n,
    models (handle (PostSettled i ri) (handle (PostSettled j rj) w)) !! n
    = (if decide (n = mi) then models (handle (PostSettled i ri) w) !! n
       else models (handle (PostSettled j rj) w) !! n)
    /\ buttons (handle (PostSettled i ri) (handle (PostSettled j rj) w)) !! n
       = (if decide (n = bi) then buttons (handle (PostSettled i ri) w) !! n
          else buttons (handle (PostSettled j rj) w) !! n)
    /\ chains (handle (PostSettled i ri) (handle (PostSettled j rj) w)) !! n
       = (if decide (n = i) then Some None
          else chains (handle (PostSettled j rj) w) !! n).
Proof.
  intros Hi Hj Hij Hb Hm n.
  set (v := handle (PostSettled j rj) w).
  assert (Hvi : chains v !! i = Some (Some (bi, mi))).
  { unfold v.
    destruct (settled_elsewhere w j bj mj rj mi bi i Hj) as (_ & _ & -> & _);
      done. }
  assert (Hvm : models v !! mi = models w !! mi).
  { unfold v.
    by destruct (settled_elsewhere w j bj mj rj mi bi i Hj) as (-> & _). }
  assert (Hvb : buttons v !! bi = buttons w !! bi).
  { unfold v.
    by destruct (settled_elsewhere w j bj mj rj mi bi i Hj) as (_ & -> & _). }
  split_and!.
  - case_decide as Hn.
    + subst n. apply (settled_own_model v w i bi mi ri); [done..| |done].
      apply settled_overwritten.
    + by destruct (settled_elsewhere v i bi mi ri n (S bi) (S i) Hvi)
        as (-> & _); [|lia|lia|].
  - case_decide as Hn.
    + subst n. by apply (settled_own_button v w i bi mi ri).
    + by destruct (settled_elsewhere v i bi mi ri (S mi) n (S i) Hvi)
        as (_ & -> & _); [lia| |lia|].
  - case_decide as Hn.
    + subst n. by apply (settled_own_chain v i bi mi ri).
    + by destruct (settled_elsewhere v i bi mi ri (S mi) (S bi) n Hvi)
        as (_ & _ & -> & _); [lia|lia| |].
Qed.

(** X9. Two pending activations (of different controls, each with its own
    result model) settle independently: in whichever order the two answers
    arrive, the result models, the buttons, the pending chains, the cells,
    the stored configuration and the posted requests end up the same.  Only
    the order of the console's entries tells the two orders apart. *)
Theorem settlements_commute
    (w : World) (i j bi bj mi mj : nat)
    (ri rj : Settled ChatCompletion.Response) :
  chains w !! i = Some (Some (bi, mi)) ->
  chains w !! j = Some (Some (bj, mj)) ->
  i <> j -> bi <> bj -> mi <> mj ->
  let ij := handle (PostSettled j rj) (handle (PostSettled i ri) w) in
  let ji := handle (PostSettled i ri) (handle (PostSettled j rj) w) in
  models ij = models ji
  /\ buttons ij = buttons ji
  /\ chains ij = chains ji
  /\ cells ij = cells ji
  /\ Configuration ij = Configuration ji
  /\ posted ij = posted ji.
Proof.
  intros Hi Hj Hij Hb Hm ij ji.
  pose proof (settled_twice_lookup w i j bi bj mi mj ri rj Hi Hj Hij Hb Hm)
    as Hji.
  assert (Hji' : j <> i) by done.
  assert (Hb' : bj <> bi) by done.
  assert (Hm' : mj <> mi) by done.
  pose proof (settled_twice_lookup w j i bj bi mj mi rj ri Hj Hi Hji' Hb' Hm')
    as Hij2.
  split_and!.
  - apply list_eq. intros n. unfold ij, ji.
    destruct (Hji n) as (-> & _). destruct (Hij2 n) as (-> & _).
    repeat case_decide; subst; try done.
    destruct (settled_elsewhere w j bj mj rj n bi i Hj) as (-> & _);
      [done..|].
    by destruct (settled_elsewhere w i bi mi ri n bj j Hi) as (-> & _).
  - apply list_eq. intros n. unfold ij, ji.
    destruct (Hji n) as (_ & -> & _). destruct (Hij2 n) as (_ & -> & _).
    repeat case_decide; subst; try done.
    destruct (settled_elsewhere w j bj mj rj mi n i Hj) as (_ & -> & _);
      [done..|].
    by destruct (settled_elsewhere w i bi mi ri mj n j Hi) as (_ & -> & _).
  - apply list_eq. intros n. unfold ij, ji.
    destruct (Hji n) as (_ & _ & ->). destruct (Hij2 n) as (_ & _ & ->).
    repeat case_decide; subst; try done.
    + symmetry. by apply (settled_own_chain w j bj mj rj).
    + by apply (settled_own_chain w i bi mi ri).
    + destruct (settled_elsewhere w j bj mj rj mi bi n Hj)
        as (_ & _ & -> & _); [done..|].
      by destruct (settled_elsewhere w i bi mi ri mj bj n Hi)
        as (_ & _ & -> & _).
  - unfold ij, ji. by destruct (settled_frame j rj (handle (PostSettled i ri) w))
      as (_ & _ & ->), (settled_frame i ri (handle (PostSettled j rj) w))
      as (_ & _ & ->), (settled_frame i ri w) as (_ & _ & ->),
      (settled_frame j rj w) as (_ & _ & ->).
  - unfold ij, ji. by destruct (settled_frame j rj (handle (PostSettled i ri) w))
      as (-> & _), (settled_frame i ri (handle (PostSettled j rj) w))
      as (-> & _), (settled_frame i ri w) as (-> & _),
      (settled_frame j rj w) as (-> & _).
  - unfold ij, ji. by destruct (settled_frame j rj (handle (PostSettled i ri) w))
      as (_ & -> & _), (settled_frame i ri (handle (PostSettled j rj) w))
      as (_ & -> & _), (settled_frame i ri w) as (_ & -> & _),
      (settled_frame j rj w) as (_ & -> & _).
Qed.

Lemma settlements_commute_witness :
  let ij := handle (PostSettled 1 (Rejected status_401))
              (handle (PostSettled 0 explained) both_loading) in
  let ji := handle (PostSettled 0 explained)
              (handle (PostSettled 1 (Rejected status_401)) both_loading) in
  models ij = models ji
  /\ buttons ij = buttons ji
  /\ chains ij = chains ji
  /\ cells ij = cells ji
  /\ Configuration ij = Configuration ji
  /\ posted ij = posted ji.
Proof.
  apply (settlements_commute both_loading 0 1 0 1 0 1 explained
           (Rejected status_401)).
  - reflexivity.
  - reflexivity.
  - lia.
  - lia.
  - lia.
Defined.

(** ** Nothing is ever taken away *)

Section Growth.
Implicit Types (w v : World) (c b : nat).

Lemma cells_extend_refl (l : list Cell) : cells_extend l l.
Proof. intros c cl H. exists cl. by split_and!. Qed.

Lemma cells_extend_trans (l1 l2 l3 : list Cell) :
  cells_extend l1 l2 -> cells_extend l2 l3 -> cells_extend l1 l3.
Proof.
  intros H12 H23 c cl H.
  destruct (H12 c cl H) as (cl2 & H2 & Ht2 & Ho2 & Hn2 & Hs2).
  destruct (H23 c cl2 H2) as (cl3 & H3 & Ht3 & Ho3 & Hn3 & Hs3).
  exists cl3. split_and!; [done|congruence|congruence| |lia].
  by etrans.
Qed.

Lemma buttons_extend_refl (l : list HTMLButtonElement) : buttons_extend l l.
Proof. intros b e H. exists e. by split_and!. Qed.

Lemma buttons_extend_trans (l1 l2 l3 : list HTMLButtonElement) :
  buttons_extend l1 l2 -> buttons_extend l2 l3 -> buttons_extend l1 l3.
Proof.
  intros H12 H23 b e H.
  destruct (H12 b e H) as (e2 & H2 & Ha2 & Hb2 & Hc2 & Hd2).
  destruct (H23 b e2 H2) as (e3 & H3 & Ha3 & Hb3 & Hc3 & Hd3).
  exists e3. split_and!; [done|congruence..].
Qed.

Lemma appendChild_cells_extend c n w :
  cells_extend (cells w) (cells (appendChild c n w)).
Proof.
  unfold appendChild. destruct (cells w !! c) as [x|] eqn:Hx;
    [|apply cells_extend_refl].
  intros c' cl Hc'. simpl. destruct (decide (c = c')) as [<-|Hne].
  - rewrite list_lookup_insert_eq by (by eapply lookup_lt_Some).
    eexists. split; [done|]. simplify_eq. simpl.
    split_and!; [done|done| |done]. by apply prefix_app_r.
  - rewrite list_lookup_insert_ne by done. exists cl. by split_and!.
Qed.

Lemma connect_changed_cells_extend c w :
  cells_extend (cells w) (cells (connect_changed c w)).
Proof.
  unfold connect_changed. destruct (cells w !! c) as [x|] eqn:Hx;
    [|apply cells_extend_refl].
  intros c' cl Hc'. simpl. destruct (decide (c = c')) as [<-|Hne].
  - rewrite list_lookup_insert_eq by (by eapply lookup_lt_Some).
    eexists. split; [done|]. simplify_eq. simpl.
    split_and!; [done|done|done|lia].
  - rewrite list_lookup_insert_ne by done. exists cl. by split_and!.
Qed.

Lemma checkForErrors_cells_extend c w :
  cells_extend (cells w) (cells (checkForErrors c w)).
Proof.
  destruct (cells w !! c) as [cl|] eqn:Hc.
  - destruct (decide (first_output_is_error cl)) as [Hf|Hf].
    + rewrite (checkForErrors_flagged c w cl Hc Hf).
      apply (appendChild_cells_extend c _ (set_buttons _ w)).
    + rewrite (checkForErrors_unflagged c w cl Hc Hf).
      apply cells_extend_refl.
  - rewrite checkForErrors_missing by done. apply cells_extend_refl.
Qed.

Lemma checkForErrors_buttons_extend c w :
  buttons_extend (buttons w) (buttons (checkForErrors c w)).
Proof.
  destruct (cells w !! c) as [cl|] eqn:Hc.
  - destruct (decide (first_output_is_error cl)) as [Hf|Hf].
    + rewrite (checkForErrors_flagged_buttons c w cl Hc Hf).
      intros b e Hb. exists e. split_and!; [|done..].
      by apply lookup_app_l_Some.
    + rewrite (checkForErrors_unflagged c w cl Hc Hf).
      apply buttons_extend_refl.
  - rewrite checkForErrors_missing by done. apply buttons_extend_refl.
Qed.

Lemma set_disabled_buttons_extend b x w :
  buttons_extend (buttons w) (buttons (set_disabled b x w)).
Proof.
  unfold set_disabled. destruct (buttons w !! b) as [y|] eqn:Hy;
    [|apply buttons_extend_refl].
  intros b' e Hb'. simpl. destruct (decide (b = b')) as [<-|Hne].
  - rewrite list_lookup_insert_eq by (by eapply lookup_lt_Some).
    eexists. split; [done|]. by simplify_eq.
  - rewrite list_lookup_insert_ne by done. exists e. by split_and!.
Qed.

Lemma start_request_buttons (b : nat) (w : World) :
  buttons (start_request b w) = buttons (set_disabled b true w).
Proof.
  unfold start_request. destruct (buttons w !! b) as [e|] eqn:He.
  - by store_simpl.
  - unfold set_disabled. by rewrite He.
Qed.

Lemma start_request_cells_extend b w :
  cells_extend (cells w) (cells (start_request b w)).
Proof.
  unfold start_request. destruct (buttons w !! b) as [e|];
    [|apply cells_extend_refl].
  eapply cells_extend_trans; [|apply appendChild_cells_extend].
  store_simpl. apply cells_extend_refl.
Qed.

Lemma grown_refl w : grown w w.
Proof.
  split_and!; [apply cells_extend_refl|apply buttons_extend_refl|done..].
Qed.

Lemma grown_trans w1 w2 w3 : grown w1 w2 -> grown w2 w3 -> grown w1 w3.
Proof.
  intros (Ha & Hb & Hc & Hd) (Ha' & Hb' & Hc' & Hd'). split_and!.
  - by eapply cells_extend_trans.
  - by eapply buttons_extend_trans.
  - by etrans.
  - by etrans.
Qed.

Lemma checkForErrors_grown c w : grown w (checkForErrors c w).
Proof.
  destruct (checkForErrors_frame c w) as (_ & _ & Hp & _ & Hk & _).
  split_and!.
  - apply checkForErrors_cells_extend.
  - apply checkForErrors_buttons_extend.
  - by rewrite Hp.
  - by rewrite Hk.
Qed.

Lemma connect_changed_grown c w : grown w (connect_changed c w).
Proof.
  destruct (connect_changed_frame c w)
    as (_ & _ & Hp & _ & Hk & _ & Hb & _).
  split_and!.
  - apply connect_changed_cells_extend.
  - rewrite Hb. apply buttons_extend_refl.
  - by rewrite Hp.
  - by rewrite Hk.
Qed.

Lemma configure_grown user w : grown w (configure user w).
Proof.
  unfold configure. destruct (accept _); [|apply grown_refl].
  split_and!; [apply cells_extend_refl|apply buttons_extend_refl|done..].
Qed.

Lemma start_request_grown b w : grown w (start_request b w).
Proof.
  split_and!.
  - apply start_request_cells_extend.
  - rewrite start_request_buttons. apply set_disabled_buttons_extend.
  - destruct (buttons w !! b) as [e|] eqn:He.
    + rewrite (start_request_posted b w e He). by apply prefix_app_r.
    + unfold start_request. by rewrite He.
  - by rewrite start_request_console.
Qed.

Lemma settled_grown i r w : grown w (handle (PostSettled i r) w).
Proof.
  destruct (settled_frame i r w) as (_ & Hp & Hc).
  destruct (chains w !! i) as [[[b model]|]|] eqn:Hi;
    [|simpl; rewrite Hi; apply grown_refl..].
  split_and!.
  - rewrite Hc. apply cells_extend_refl.
  - rewrite (handle_settled_pending i b model r w Hi).
    rewrite chain_settled_buttons_inner.
    eapply buttons_extend_trans; [|apply set_disabled_buttons_extend].
    rewrite getErrorAnalysis_settled_buttons. apply buttons_extend_refl.
  - by rewrite Hp.
  - rewrite (handle_settled_pending i b model r w Hi).
    destruct r as [d|e]; simpl.
    + destruct (ChatCompletion.choices d !! 0); simpl.
      * by rewrite chain_settled_console_fulfilled.
      * rewrite chain_settled_console_rejected. simpl.
        rewrite <- app_assoc. by apply prefix_app_r.
    + rewrite chain_settled_console_rejected. simpl.
      rewrite <- app_assoc. by apply prefix_app_r.
Qed.

Lemma set_watching_grown x w : grown w (set_watching x w).
Proof.
  split_and!; simpl;
    [apply cells_extend_refl|apply buttons_extend_refl|done..].
Qed.

Lemma handle_grown e w : grown w (handle e w).
Proof.
  destruct e as [| |c|user|b user|i r]; simpl.
  - unfold widgetAdded. destruct (has_model w); [|apply grown_refl].
    apply (grown_trans _ (forEach_widget scan_existing w));
      [|apply set_watching_grown].
    apply (forEach_widget_invariant (grown w)); [|apply grown_refl].
    intros c v Hv. unfold scan_existing. destruct (is_code c v); [|done].
    eapply grown_trans; [exact Hv|apply checkForErrors_grown].
  - destruct (watching w); [|apply grown_refl]. unfold cells_changed.
    apply (forEach_widget_invariant (grown w)); [|apply grown_refl].
    intros c v Hv. unfold scan_and_connect. destruct (is_code c v); [|done].
    eapply grown_trans; [exact Hv|].
    eapply grown_trans; [apply checkForErrors_grown|apply connect_changed_grown].
  - unfold outputs_changed. destruct (cells w !! c); [|apply grown_refl].
    apply (iter_invariant (grown w)); [|apply grown_refl].
    intros v Hv. eapply grown_trans; [exact Hv|apply checkForErrors_grown].
  - apply configure_grown.
  - destruct (buttons w !! b) as [eb|]; [|apply grown_refl].
    destruct (disabled eb); [apply grown_refl|].
    unfold errorButton_onclick.
    eapply grown_trans; [|apply start_request_grown].
    unfold credential_guard. destruct (negb _); [|apply grown_refl].
    apply configure_grown.
  - apply settled_grown.
Qed.

Lemma run_grown es w : grown w (run es w).
Proof.
  unfold run. apply (foldl_invariant (grown w)); [|apply grown_refl].
  intros e v Hv. eapply grown_trans; [exact Hv|apply handle_grown].
Qed.
End Growth.

(** X10. No handler of the extension ever removes or reorders a child of
    a cell's node, changes a cell's type or outputs, or disconnects a slot:
    after any sequence of handlers a cell has the type and outputs it had,
    a node that starts with the children it had, and at least as many
    output slots.  Controls and result areas, once appended, stay. *)
Theorem handlers_only_append_to_cells
    (es : list Event) (w : World) (c : nat) (cl : Cell) :
  cells w !! c = Some cl ->
  exists cl', cells (run es w) !! c = Some cl'
    /\ cell_type cl' = cell_type cl
    /\ outputs cl' = outputs cl
    /\ node cl `prefix_of` node cl'
    /\ changed_slots cl <= changed_slots cl'.
Proof. intros Hc. by destruct (run_grown es w) as (H & _); apply H. Qed.

Lemma handlers_only_append_to_cells_witness :
  exists cl',
    cells (run [CellsChanged; PostSettled 0 (Rejected status_401);
                OutputsChanged 0] loading_notebook) !! 0 = Some cl'
    /\ cell_type cl' = code
    /\ outputs cl' = [error_output zero_division]
    /\ [HostNode; ButtonNode 0; OutputAreaNode 0] `prefix_of` node cl'
    /\ 0 <= changed_slots cl'.
Proof.
  apply (handlers_only_append_to_cells
           [CellsChanged; PostSettled 0 (Rejected status_401); OutputsChanged 0]
           loading_notebook 0
           {| cell_type := code; outputs := [error_output zero_division];
              node := [HostNode; ButtonNode 0; OutputAreaNode 0];
              changed_slots := 0 |}).
  reflexivity.
Defined.

(** X11. A control is never removed from the store, and what it was made
    with never changes: after any sequence of handlers it has the label,
    the class, the captured diagnostic text and the captured cell it was
    created with.  Only its [disabled] flag is ever written. *)
Theorem control_captures_are_fixed
    (es : list Event) (w : World) (b : nat) (errorButton : HTMLButtonElement) :
  buttons w !! b = Some errorButton ->
  exists errorButton',
    buttons (run es w) !! b = Some errorButton'
    /\ innerText errorButton' = innerText errorButton
    /\ className errorButton' = className errorButton
    /\ errorMessage errorButton' = errorMessage errorButton
    /\ cell errorButton' = cell errorButton.
Proof. intros Hb. by destruct (run_grown es w) as (_ & H & _); apply H. Qed.

Lemma control_captures_are_fixed_witness :
  exists errorButton',
    buttons (run [ErrorButtonClick 0 (submits "k1" "EN" "P"); CellsChanged;
                  PostSettled 0 explained] watched_notebook) !! 0
    = Some errorButton'
    /\ innerText errorButton' = "Analyze Error"
    /\ className errorButton' = "error-button"
    /\ errorMessage errorButton' = Some zero_division
    /\ cell errorButton' = 0.
Proof.
  apply (control_captures_are_fixed
           [ErrorButtonClick 0 (submits "k1" "EN" "P"); CellsChanged;
            PostSettled 0 explained]
           watched_notebook 0 (new_errorButton (Some zero_division) 0)).
  reflexivity.
Defined.

(** ** The text a control sends *)

Lemma host_set_outputs_frame (c : nat) (outs : list IOutputModel) (w : World) :
  Configuration (host_set_outputs c outs w) = Configuration w
  /\ buttons (host_set_outputs c outs w) = buttons w
  /\ models (host_set_outputs c outs w) = models w
  /\ posted (host_set_outputs c outs w) = posted w.
Proof. unfold host_set_outputs. by destruct (cells w !! c). Qed.

Lemma errorButton_onclick_posted (b : nat) (user : User) (w : World)
    (e : HTMLButtonElement) :
  buttons w !! b = Some e ->
  posted (errorButton_onclick b user w)
  = posted w
    ++ [getErrorAnalysis_request
          (plus (PROMPT (Configuration (credential_guard user w)))
                (errorMessage e))
          (SECRET_KEY (Configuration (credential_guard user w)))].
Proof.
  intros He. unfold errorButton_onclick.
  rewrite (start_request_posted b _ e).
  - by rewrite credential_guard_posted.
  - by rewrite credential_guard_buttons.
Qed.

(** X13. A control sends the diagnostic text of the scan that attached it,
    not the cell's text at the time of the click: once a scan has attached
    a control to a failing cell, the request its activation posts carries
    the prompt template followed by that scan's text, whatever outputs the
    cell has been given since. *)
Theorem control_sends_captured_text
    (w : World) (c : nat) (cl : Cell) (outs : list IOutputModel)
    (user : User) :
  cells w !! c = Some cl ->
  first_output_is_error cl ->
  let b := length (buttons w) in
  let w1 := host_set_outputs c outs (checkForErrors c w) in
  let cfg := Configuration (credential_guard user w1) in
  posted (errorButton_onclick b user w1)
  = posted w ++ [getErrorAnalysis_request (plus (PROMPT cfg) (diagnostic cl))
                                          (SECRET_KEY cfg)].
Proof.
  intros Hc Hf b w1 cfg.
  destruct (host_set_outputs_frame c outs (checkForErrors c w))
    as (HC & HB & _ & HP).
  rewrite (errorButton_onclick_posted b user w1
             (new_errorButton (diagnostic cl) c)).
  - unfold w1 at 1. rewrite HP.
    by destruct (checkForErrors_frame c w) as (_ & _ & -> & _).
  - unfold w1. rewrite HB, (checkForErrors_flagged_buttons c w cl Hc Hf).
    unfold b. by rewrite lookup_app_r, Nat.sub_diag by lia.
Qed.

Lemma control_sends_captured_text_witness :
  posted (errorButton_onclick 0 cancels
            (host_set_outputs 0 [error_output key_error]
               (checkForErrors 0
                  (notebook_of keyed_config
                     [new_cell code [error_output zero_division]]))))
  = [getErrorAnalysis_request ("P" +:+ zero_division) "sk-test"].
Proof.
  apply (control_sends_captured_text
           (notebook_of keyed_config
              [new_cell code [error_output zero_division]]) 0
           (new_cell code [error_output zero_division])
           [error_output key_error] cancels).
  - reflexivity.
  - exists (error_output zero_division), []. split; reflexivity.
Defined.

(** ** A pass over the notebook *)

Section Pass.
(** The body of a [forEach] over the notebook's cells: a visit of one cell
    leaves the other cells alone and only appends buttons. *)
Variable visit : nat -> World -> World.
Hypothesis visit_other :
  forall x c u, x <> c -> cells (visit x u) !! c = cells u !! c.
Hypothesis visit_buttons :
  forall x u, buttons u `prefix_of` buttons (visit x u).

Lemma pass_other (l : list nat) (u : World) (c : nat) :
  c ∉ l -> cells (foldl (fun acc x => visit x acc) u l) !! c = cells u !! c.
Proof.
  revert u. induction l as [|x l IH]; intros u Hc; [done|].
  apply not_elem_of_cons in Hc as [Hne Hc]. simpl.
  rewrite (IH _ Hc). by apply visit_other.
Qed.

Lemma pass_buttons (l : list nat) (u : World) :
  buttons u `prefix_of` buttons (foldl (fun acc x => visit x acc) u l).
Proof.
  revert u. induction l as [|x l IH]; intros u; [done|]. simpl.
  etrans; [apply (visit_buttons x u)|apply IH].
Qed.

(** In a pass over a list without repetition, the cell [c] is visited
    once, in a store where it is as it was before the pass; what the visit
    makes of the cell and the buttons it adds are there after the pass. *)
Lemma pass_visits_once (w : World) (c : nat) :
  NoDup (widgets w) -> c ∈ widgets w ->
  exists u, cells u !! c = cells w !! c
    /\ buttons w `prefix_of` buttons u
    /\ cells (forEach_widget visit w) !! c = cells (visit c u) !! c
    /\ buttons (visit c u) `prefix_of` buttons (forEach_widget visit w).
Proof.
  intros Hnd Hin. unfold forEach_widget.
  apply list_elem_of_split in Hin as (l1 & l2 & Hl). rewrite Hl in *.
  apply NoDup_app in Hnd as (_ & Hdis & Hnd2).
  apply NoDup_cons in Hnd2 as [Hc2 _].
  assert (Hc1 : c ∉ l1).
  { intros H1. apply (Hdis c H1). by left. }
  rewrite foldl_app. simpl.
  exists (foldl (fun acc x => visit x acc) w l1). split_and!.
  - by apply pass_other.
  - apply pass_buttons.
  - by apply pass_other.
  - apply pass_buttons.
Qed.
End Pass.

Lemma checkForErrors_buttons_prefix (c : nat) (w : World) :
  buttons w `prefix_of` buttons (checkForErrors c w).
Proof.
  destruct (cells w !! c) as [cl|] eqn:Hc.
  - destruct (decide (first_output_is_error cl)) as [Hf|Hf].
    + rewrite (checkForErrors_flagged_buttons c w cl Hc Hf).
      by apply prefix_app_r.
    + by rewrite (checkForErrors_unflagged c w cl Hc Hf).
  - by rewrite checkForErrors_missing.
Qed.

Lemma scan_existing_other (x c : nat) (u : World) :
  x <> c -> cells (scan_existing x u) !! c = cells u !! c.
Proof.
  intros Hne. unfold scan_existing. destruct (is_code x u); [|done].
  by apply checkForErrors_other.
Qed.

Lemma scan_existing_buttons (x : nat) (u : World) :
  buttons u `prefix_of` buttons (scan_existing x u).
Proof.
  unfold scan_existing. destruct (is_code x u); [|done].
  apply checkForErrors_buttons_prefix.
Qed.




Lemma is_code_cells (c : nat) (u w : World) :
  cells u !! c = cells w !! c -> is_code c u = is_code c w.
Proof. intros H. unfold is_code. by rewrite H. Qed.

(** The visit of a failing code cell during a pass. *)
Lemma scan_visit_flagged (u : World) (c : nat) (cl : Cell) :
  cells u !! c = Some cl -> cell_type cl = code -> first_output_is_error cl ->
  cells (checkForErrors c u) !! c
  = Some {| cell_type := cell_type cl; outputs := outputs cl;
            node := node cl ++ [ButtonNode (length (buttons u))];
            changed_slots := changed_slots cl |}
  /\ buttons (checkForErrors c u) !! length (buttons u)
     = Some (new_errorButton (diagnostic cl) c).
Proof.
  intros Hc Ht Hf. split.
  - rewrite (checkForErrors_flagged c u cl Hc Hf).
    unfold appendChild. simpl. rewrite Hc. simpl.
    apply list_lookup_insert_eq. by eapply lookup_lt_Some.
  - rewrite (checkForErrors_flagged_buttons c u cl Hc Hf).
    by rewrite lookup_app_r, Nat.sub_diag by lia.
Qed.

(** X14. When a notebook is opened, the scan of its cells attaches exactly
    one control to every failing code cell: the cell's node gains one
    child, a new button that captured this cell and its diagnostic text;
    the rest of the node is as it was. *)
Theorem opening_scan_attaches_one_control (w : World) (c : nat) (cl : Cell) :
  has_model w = true ->
  NoDup (widgets w) ->
  c ∈ widgets w ->
  cells w !! c = Some cl ->
  cell_type cl = code ->
  first_output_is_error cl ->
  exists b,
    length (buttons w) <= b
    /\ node_of c (handle WidgetAdded w) = node cl ++ [ButtonNode b]
    /\ buttons (handle WidgetAdded w) !! b
       = Some (new_errorButton (diagnostic cl) c).
Proof.
  intros Hm Hnd Hin Hc Ht Hf.
  change (handle WidgetAdded w) with (widgetAdded w).
  unfold widgetAdded. rewrite Hm.
  destruct (pass_visits_once scan_existing scan_existing_other
              scan_existing_buttons w c Hnd Hin)
    as (u & Hu & Hbu & Hcells & Hbtn).
  rewrite Hc in Hu.
  assert (Hk : is_code c u = true).
  { unfold is_code. rewrite Hu. by apply bool_decide_eq_true. }
  assert (Hv : scan_existing c u = checkForErrors c u).
  { unfold scan_existing. by rewrite Hk. }
  rewrite Hv in Hcells, Hbtn.
  destruct (scan_visit_flagged u c cl Hu Ht Hf) as [Hcell Hbutton].
  exists (length (buttons u)). split_and!.
  - by apply prefix_length.
  - unfold node_of.
    change (cells (set_watching true (forEach_widget scan_existing w)))
      with (cells (forEach_widget scan_existing w)).
    by rewrite Hcells, Hcell.
  - change (buttons (set_watching true (forEach_widget scan_existing w)))
      with (buttons (forEach_widget scan_existing w)).
    by eapply prefix_lookup_Some.
Qed.

Lemma opening_scan_attaches_one_control_witness :
  exists b,
    0 <= b
    /\ node_of 1 two_failures = [HostNode] ++ [ButtonNode b]
    /\ buttons two_failures !! b
       = Some (new_errorButton (Some key_error) 1).
Proof.
  apply (opening_scan_attaches_one_control
           (notebook_of keyed_config
              [new_cell code [error_output zero_division];
               new_cell code [error_output key_error]]) 1
           (new_cell code [error_output key_error])).
  - reflexivity.
  - apply NoDup_seq.
  - apply elem_of_seq. simpl. lia.
  - reflexivity.
  - reflexivity.
  - exists (error_output key_error), []. split; reflexivity.
Defined.




(** X16. A notebook panel whose model is null is neither scanned nor
    watched: opening it returns at once, no slot is connected to its cell
    list, and so, with no output slot connected before, no notification of
    any kind changes the store. *)
Theorem null_model_is_never_scanned (es : list Event) (w : World) :
  has_model w = false ->
  watching w = false ->
  Forall (fun cl => changed_slots cl = 0) (cells w) ->
  forallb is_notification es = true ->
  run es w = w.
Proof.
  intros Hm Hw Hs Hes. induction es as [|e es IH]; [done|].
  simpl in Hes. apply andb_prop in Hes as [He Hes].
  change (run (e :: es) w) with (run es (handle e w)).
  assert (Hstep : handle e w = w).
  { destruct e as [| |c|user|b user|i r]; try discriminate He; simpl.
    - unfold widgetAdded. by rewrite Hm.
    - by rewrite Hw.
    - unfold outputs_changed. destruct (cells w !! c) as [cl|] eqn:Hc; [|done].
      rewrite Forall_lookup in Hs. by rewrite (Hs c cl Hc). }
  rewrite Hstep. by apply IH.
Qed.

Lemma null_model_is_never_scanned_witness :
  run [WidgetAdded; CellsChanged; OutputsChanged 0; WidgetAdded]
      {| Configuration := Configuration_initial; has_model := false;
         watching := false;
         cells := [new_cell code [error_output zero_division]];
         widgets := [0]; buttons := []; models := []; posted := [];
         chains := []; console := []; overwritten := no_overwriting |}
  = {| Configuration := Configuration_initial; has_model := false;
       watching := false;
       cells := [new_cell code [error_output zero_division]];
       widgets := [0]; buttons := []; models := []; posted := [];
       chains := []; console := []; overwritten := no_overwriting |}.
Proof.
  apply (null_model_is_never_scanned
           [WidgetAdded; CellsChanged; OutputsChanged 0; WidgetAdded]).
  - reflexivity.
  - reflexivity.
  - repeat constructor.
  - reflexivity.
Defined.

(** ** Controls and the cells they were made for *)

Section OwnCell.
Implicit Types (w v : World) (c b : nat).

(** The invariant carries over to a store with the same cells whose
    buttons are those of the old one, up to their [disabled] flag. *)
Lemma own_cell_same_cells w v :
  cells v = cells w -> buttons_extend (buttons w) (buttons v) ->
  controls_in_own_cell w -> controls_in_own_cell v.
Proof.
  intros Hc Hb Hw c cl b Hcl Hin. rewrite Hc in Hcl.
  destruct (Hw c cl b Hcl Hin) as (e & He & Hcell).
  destruct (Hb b e He) as (e' & He' & _ & _ & _ & Hcell').
  exists e'. split; [done|congruence].
Qed.

Lemma own_cell_checkForErrors c w :
  controls_in_own_cell w -> controls_in_own_cell (checkForErrors c w).
Proof.
  intros Hw. destruct (cells w !! c) as [cl|] eqn:Hc;
    [|by rewrite checkForErrors_missing].
  destruct (decide (first_output_is_error cl)) as [Hf|Hf];
    [|by rewrite (checkForErrors_unflagged c w cl Hc Hf)].
  intros c' cl' b Hcl' Hin.
  rewrite (checkForErrors_flagged_buttons c w cl Hc Hf).
  assert (Hold : forall x y, cells w !! x = Some y -> ButtonNode b ∈ node y ->
            exists e, (buttons w ++ [new_errorButton (diagnostic cl) c]) !! b
                      = Some e /\ cell e = x).
  { intros x y Hx Hy. destruct (Hw x y b Hx Hy) as (e & He & Hcell).
    exists e. split; [by apply lookup_app_l_Some|done]. }
  destruct (decide (c = c')) as [<-|Hne].
  - rewrite (checkForErrors_flagged c w cl Hc Hf) in Hcl'.
    unfold appendChild in Hcl'. simpl in Hcl'. rewrite Hc in Hcl'.
    simpl in Hcl'.
    rewrite list_lookup_insert_eq in Hcl' by (by eapply lookup_lt_Some).
    injection Hcl' as <-. simpl in Hin.
    apply elem_of_app in Hin as [Hin|Hin]; [by apply (Hold c cl)|].
    apply list_elem_of_singleton in Hin. injection Hin as ->.
    exists (new_errorButton (diagnostic cl) c). split; [|done].
    by rewrite lookup_app_r, Nat.sub_diag by lia.
  - rewrite checkForErrors_other in Hcl' by done. by apply (Hold c' cl').
Qed.

Lemma own_cell_connect_changed c w :
  controls_in_own_cell w -> controls_in_own_cell (connect_changed c w).
Proof.
  intros Hw c' cl' b Hcl' Hin.
  destruct (connect_changed_frame c w) as (_ & _ & _ & _ & _ & _ & -> & _).
  unfold connect_changed in Hcl'.
  destruct (cells w !! c) as [cl|] eqn:Hc; [|by apply (Hw c' cl')].
  simpl in Hcl'. destruct (decide (c = c')) as [<-|Hne].
  - rewrite list_lookup_insert_eq in Hcl' by (by eapply lookup_lt_Some).
    injection Hcl' as <-. by apply (Hw c cl).
  - rewrite list_lookup_insert_ne in Hcl' by done. by apply (Hw c' cl').
Qed.

Lemma own_cell_appendChild_area c m w :
  controls_in_own_cell w ->
  controls_in_own_cell (appendChild c (OutputAreaNode m) w).
Proof.
  intros Hw c' cl' b Hcl' Hin. rewrite appendChild_buttons.
  unfold appendChild in Hcl'.
  destruct (cells w !! c) as [cl|] eqn:Hc; [|by apply (Hw c' cl')].
  simpl in Hcl'. destruct (decide (c = c')) as [<-|Hne].
  - rewrite list_lookup_insert_eq in Hcl' by (by eapply lookup_lt_Some).
    injection Hcl' as <-. simpl in Hin.
    apply elem_of_app in Hin as [Hin|Hin]; [by apply (Hw c cl)|].
    apply list_elem_of_singleton in Hin. discriminate Hin.
  - rewrite list_lookup_insert_ne in Hcl' by done. by apply (Hw c' cl').
Qed.

Lemma own_cell_start_request b w :
  controls_in_own_cell w -> controls_in_own_cell (start_request b w).
Proof.
  intros Hw. unfold start_request.
  destruct (buttons w !! b) as [e|] eqn:He; [|done].
  apply own_cell_appendChild_area.
  apply (own_cell_same_cells (set_disabled b true w)).
  - by store_simpl.
  - store_simpl. apply buttons_extend_refl.
  - apply (own_cell_same_cells w); [by store_simpl| |done].
    apply set_disabled_buttons_extend.
Qed.

Lemma own_cell_handle e w :
  controls_in_own_cell w -> controls_in_own_cell (handle e w).
Proof.
  intros Hw. destruct e as [| |c|user|b user|i r]; [simpl..|].
  - unfold widgetAdded. destruct (has_model w); [|done].
    apply (own_cell_same_cells (forEach_widget scan_existing w));
      [done|apply buttons_extend_refl|].
    apply forEach_widget_invariant; [|done].
    intros c v Hv. unfold scan_existing. destruct (is_code c v); [|done].
    by apply own_cell_checkForErrors.
  - destruct (watching w); [|done]. unfold cells_changed.
    apply forEach_widget_invariant; [|done].
    intros c v Hv. unfold scan_and_connect. destruct (is_code c v); [|done].
    by apply own_cell_connect_changed, own_cell_checkForErrors.
  - unfold outputs_changed. destruct (cells w !! c); [|done].
    apply iter_invariant; [|done].
    intros v Hv. by apply own_cell_checkForErrors.
  - apply (own_cell_same_cells w); [apply configure_cells| |done].
    rewrite configure_buttons. apply buttons_extend_refl.
  - destruct (buttons w !! b) as [eb|]; [|done].
    destruct (disabled eb); [done|].
    unfold errorButton_onclick. apply own_cell_start_request.
    apply (own_cell_same_cells w); [apply credential_guard_cells| |done].
    rewrite credential_guard_buttons. apply buttons_extend_refl.
  - apply (own_cell_same_cells w); [|by apply settled_grown|done].
    by destruct (settled_frame i r w) as (_ & _ & ->).
Qed.

Lemma own_cell_run es w :
  controls_in_own_cell w -> controls_in_own_cell (run es w).
Proof.
  unfold run. apply foldl_invariant. intros e v. apply own_cell_handle.
Qed.

Lemma own_cell_notebook_of cfg cs :
  Forall (fun cl => controls (node cl) = []) cs ->
  controls_in_own_cell (notebook_of cfg cs).
Proof.
  intros Hcs c cl b Hc Hin. simpl in Hc.
  rewrite Forall_lookup in Hcs. specialize (Hcs c cl Hc).
  exfalso. apply list_elem_of_split in Hin as (l1 & l2 & Hl).
  rewrite Hl, controls_app in Hcs. simpl in Hcs.
  by apply app_eq_nil in Hcs as [_ ?].
Qed.
End OwnCell.

(** X17. A control sits in the cell it was made for.  Starting from a
    notebook whose cells carry no control yet, after any sequence of
    handlers every control found among the children of a cell is a button
    whose [onclick] captured that very cell; so the result area an
    activation appends goes to the cell that shows the clicked control. *)
Theorem control_belongs_to_its_cell
    (cfg : Config) (cs : list Cell) (es : list Event)
    (c b : nat) (cl : Cell) :
  Forall (fun x => controls (node x) = []) cs ->
  cells (run es (notebook_of cfg cs)) !! c = Some cl ->
  ButtonNode b ∈ node cl ->
  exists errorButton,
    buttons (run es (notebook_of cfg cs)) !! b = Some errorButton
    /\ cell errorButton = c
    /\ forall user,
         node_of c (errorButton_onclick b user (run es (notebook_of cfg cs)))
         = node cl
           ++ [OutputAreaNode (length (models (run es (notebook_of cfg cs))))].
Proof.
  intros Hcs Hc Hin.
  destruct (own_cell_run es (notebook_of cfg cs)
              (own_cell_notebook_of cfg cs Hcs) c cl b Hc Hin)
    as (e & He & Hcell).
  exists e. split_and!; [done..|]. intros user. subst c.
  unfold errorButton_onclick.
  rewrite (start_request_node b _ e).
  - unfold node_of.
    by rewrite credential_guard_cells, Hc, credential_guard_models.
  - by rewrite credential_guard_buttons.
  - rewrite credential_guard_cells. by exists cl.
Qed.

Lemma control_belongs_to_its_cell_witness :
  exists errorButton,
    buttons (run [WidgetAdded; ErrorButtonClick 0 cancels]
                 (notebook_of keyed_config
                    [new_cell code [error_output zero_division]])) !! 0
    = Some errorButton
    /\ cell errorButton = 0
    /\ forall user,
         node_of 0
           (errorButton_onclick 0 user
              (run [WidgetAdded; ErrorButtonClick 0 cancels]
                   (notebook_of keyed_config
                      [new_cell code [error_output zero_division]])))
         = [HostNode; ButtonNode 0; OutputAreaNode 0]
           ++ [OutputAreaNode
                 (length (models
                    (run [WidgetAdded; ErrorButtonClick 0 cancels]
                         (notebook_of keyed_config
                            [new_cell code [error_output zero_division]]))))].
Proof.
  apply (control_belongs_to_its_cell keyed_config
           [new_cell code [error_output zero_division]]
           [WidgetAdded; ErrorButtonClick 0 cancels] 0 0
           {| cell_type := code; outputs := [error_output zero_division];
              node := [HostNode; ButtonNode 0; OutputAreaNode 0];
              changed_slots := 0 |}).
  - repeat constructor.
  - vm_compute. reflexivity.
  - apply list_elem_of_In. simpl. tauto.
Defined.

(** ** Copies and repeated clicks *)

Lemma diagnostic_outputs (cl cl' : Cell) :
  outputs cl' = outputs cl -> diagnostic cl' = diagnostic cl.
Proof. intros H. unfold diagnostic. by rewrite H. Qed.

(** X18. The controls that re-scans of an unchanged failing cell stack up
    are identical copies: each of the [n] buttons added by [n] scans is
    enabled, carries the same label and class, and captured the same cell
    and the same diagnostic text; the buttons that existed before are
    untouched. *)
Theorem rescans_add_identical_controls
    (n : nat) (w : World) (c : nat) (cl : Cell) :
  cells w !! c = Some cl ->
  first_output_is_error cl ->
  buttons (Nat.iter n (checkForErrors c) w)
  = buttons w ++ replicate n (new_errorButton (diagnostic cl) c).
Proof.
  intros Hc Hf. induction n as [|n IH].
  - simpl. by rewrite app_nil_r.
  - change (Nat.iter (S n) (checkForErrors c) w)
      with (checkForErrors c (Nat.iter n (checkForErrors c) w)).
    destruct (rescans_state n c w cl Hc Hf) as (cl' & Hc' & Ho & _ & _).
    assert (Hf' : first_output_is_error cl')
      by (by apply (first_output_is_error_outputs cl cl')).
    rewrite (checkForErrors_flagged_buttons c _ cl' Hc' Hf'), IH.
    rewrite (diagnostic_outputs cl cl' Ho), <- app_assoc. f_equal.
    change [new_errorButton (diagnostic cl) c]
      with (replicate 1 (new_errorButton (diagnostic cl) c)).
    rewrite <- replicate_add. f_equal. lia.
Qed.

Lemma rescans_add_identical_controls_witness :
  buttons (Nat.iter 3 (checkForErrors 0) failed_notebook)
  = [] ++ replicate 3 (new_errorButton (Some zero_division) 0).
Proof.
  apply (rescans_add_identical_controls 3 failed_notebook 0
           (new_cell code [error_output zero_division])).
  - reflexivity.
  - exists (error_output zero_division), []. split; reflexivity.
Defined.

(** X19. The first thing an activation does once the dialog is out of the
    way is to disable its control, and a disabled control does not
    receive clicks: a second click on the same control before the request
    settles changes nothing, so one control has at most one request in
    flight. *)
Theorem pending_control_ignores_clicks
    (w : World) (b : nat) (errorButton : HTMLButtonElement)
    (user1 user2 : User) :
  buttons w !! b = Some errorButton ->
  disabled errorButton = false ->
  handle (ErrorButtonClick b user2) (handle (ErrorButtonClick b user1) w)
  = handle (ErrorButtonClick b user1) w
  /\ length (posted (handle (ErrorButtonClick b user2)
                       (handle (ErrorButtonClick b user1) w)))
     = S (length (posted w)).
Proof.
  intros Hb Hd.
  assert (Hfirst : handle (ErrorButtonClick b user1) w
                   = errorButton_onclick b user1 w).
  { simpl. by rewrite Hb, Hd. }
  assert (Hdis : is_disabled b (errorButton_onclick b user1 w) = Some true).
  { unfold errorButton_onclick. apply start_request_is_disabled.
    rewrite credential_guard_buttons. by exists errorButton. }
  assert (Hsecond : handle (ErrorButtonClick b user2)
                      (errorButton_onclick b user1 w)
                    = errorButton_onclick b user1 w).
  { unfold is_disabled in Hdis. simpl.
    destruct (buttons (errorButton_onclick b user1 w) !! b) as [e'|];
      [|done].
    simpl in Hdis. injection Hdis as ->. done. }
  rewrite Hfirst, Hsecond. split; [done|].
  rewrite (errorButton_onclick_posted b user1 w errorButton Hb), length_app.
  simpl. lia.
Qed.

Lemma pending_control_ignores_clicks_witness :
  handle (ErrorButtonClick 0 (submits "k1" "EN" "P"))
    (handle (ErrorButtonClick 0 cancels) watched_notebook)
  = handle (ErrorButtonClick 0 cancels) watched_notebook
  /\ length (posted (handle (ErrorButtonClick 0 (submits "k1" "EN" "P"))
                       (handle (ErrorButtonClick 0 cancels) watched_notebook)))
     = 1.
Proof.
  apply (pending_control_ignores_clicks watched_notebook 0
           (new_errorButton (Some zero_division) 0) cancels
           (submits "k1" "EN" "P")); reflexivity.
Defined.
